(** * Equipment tracker (equipment/models.py): lending lifecycle

    A shallow embedding of the equipment models of the school information
    server: [ItemType], [Item], [Transaction] and [Penalty], with the
    methods [Item.save], [Item.set_due_datetime], [Item.add_to_stock],
    [Item.check_out], [Item.check_in], [Item.days_overdue],
    [Item.find_by_number] and [Penalty.levy].

    Conventions of the embedding.
    - The database is a record of tables; a table is the list of its rows
      in the order a query returns them.  A model instance in memory is a
      plain record value; a method is a computation over the pair of its
      receiver [self] and the database, so that what a method did to
      [self] and to the tables before it raised is still there afterwards.
    - An exception is a value of [Exn]; a computation returns [Ok] or
      [Raise], always together with the state it reached.
    - [datetime.datetime.now()] and [datetime.date.today()] read a system
      clock.  The clock is a function from the number of readings taken so
      far to the reading; the database record counts the readings.
    - The methods that call themselves through kit contents are defined by
      recursion on the call depth still available; a call at depth zero
      raises [RecursionError], as the interpreter does at its recursion
      limit. *)

From Stdlib Require Import ZArith List String Ascii Bool Lia.
From Stdlib Require Import DecimalString Sorted.
Import ListNotations.
Open Scope string_scope.
Open Scope list_scope.
Open Scope Z_scope.

(** ** Python's [datetime] module, as far as the models use it *)

Module PyTime.

(** A [datetime.date] is held by its proleptic Gregorian ordinal
    ([date.toordinal()]: 1 is 0001-01-01, a Monday).  The calendar is not
    bounded above: the [OverflowError] past year 9999 is not modelled. *)
Definition date := Z.

Definition is_leap (year : Z) : bool :=
  (year mod 4 =? 0) && (negb (year mod 100 =? 0) || (year mod 400 =? 0)).

Definition days_before_year (year : Z) : Z :=
  let y := year - 1 in y * 365 + y / 4 - y / 100 + y / 400.

Definition days_in_month (year month : Z) : Z :=
  if month =? 2 then (if is_leap year then 29 else 28)
  else if (month =? 4) || (month =? 6) || (month =? 9) || (month =? 11)
       then 30 else 31.

Fixpoint days_before_month_aux (year : Z) (m : nat) : Z :=
  match m with
  | O => 0
  | S k => days_before_month_aux year k + days_in_month year (Z.of_nat m)
  end.

Definition days_before_month (year month : Z) : Z :=
  days_before_month_aux year (Z.to_nat (month - 1)).

(** [datetime.date(year, month, day)] *)
Definition mkdate (year month day : Z) : date :=
  days_before_year year + days_before_month year month + day.

(** [date.isoweekday()]: Monday is 1, Sunday is 7. *)
Definition isoweekday (d : date) : Z :=
  let r := d mod 7 in if r =? 0 then 7 else r.

(** [date + datetime.timedelta(days=n)] *)
Definition date_add_days (d : date) (n : Z) : date := d + n.

Record time := mktime { t_hour : Z; t_minute : Z; t_second : Z; t_microsecond : Z }.

(** [datetime.time(hour, minute)] *)
Definition time_hm (h m : Z) : time := mktime h m 0 0.

Record datetime := mkdatetime {
  dt_date : date;
  dt_hour : Z;
  dt_minute : Z;
  dt_second : Z;
  dt_microsecond : Z
}.

(** [datetime.datetime.combine(date, time)] *)
Definition combine (d : date) (t : time) : datetime :=
  mkdatetime d (t_hour t) (t_minute t) (t_second t) (t_microsecond t).

(** The fields of a datetime are in range. *)
Definition dt_wf (x : datetime) : Prop :=
  0 <= dt_hour x < 24 /\ 0 <= dt_minute x < 60 /\
  0 <= dt_second x < 60 /\ 0 <= dt_microsecond x < 1000000.

(** A normalised [datetime.timedelta]: [0 <= seconds < 86400] and
    [0 <= microseconds < 1000000]; [days] carries the sign. *)
Record timedelta := mkdelta { td_days : Z; td_seconds : Z; td_microseconds : Z }.

Definition us_per_second : Z := 1000000.
Definition us_per_day : Z := 86400 * us_per_second.

(** [datetime.timedelta(days, seconds, microseconds)]: the constructor
    normalises its arguments, with floor division. *)
Definition timedelta_of (days seconds microseconds : Z) : timedelta :=
  let total := (days * 86400 + seconds) * us_per_second + microseconds in
  mkdelta (total / us_per_day)
          ((total mod us_per_day) / us_per_second)
          (total mod us_per_second).

Definition td_minutes (m : Z) : timedelta := timedelta_of 0 (m * 60) 0.
Definition td_days_minutes (d m : Z) : timedelta := timedelta_of d (m * 60) 0.

Definition seconds_of_day (x : datetime) : Z :=
  dt_second x + dt_minute x * 60 + dt_hour x * 3600.

(** [datetime - datetime] *)
Definition dt_sub (a b : datetime) : timedelta :=
  timedelta_of (dt_date a - dt_date b)
               (seconds_of_day a - seconds_of_day b)
               (dt_microsecond a - dt_microsecond b).

(** [datetime + timedelta] *)
Definition dt_add (a : datetime) (d : timedelta) : datetime :=
  let s := timedelta_of (dt_date a + td_days d)
                        (seconds_of_day a + td_seconds d)
                        (dt_microsecond a + td_microseconds d) in
  mkdatetime (td_days s)
             (td_seconds s / 3600)
             ((td_seconds s mod 3600) / 60)
             ((td_seconds s mod 3600) mod 60)
             (td_microseconds s).

(** Comparison of datetimes is comparison of their field tuples. *)
Fixpoint lex_compare (xs ys : list Z) : comparison :=
  match xs, ys with
  | x :: xs', y :: ys' =>
      match x ?= y with
      | Eq => lex_compare xs' ys'
      | c => c
      end
  | [], [] => Eq
  | [], _ :: _ => Lt
  | _ :: _, [] => Gt
  end.

Definition dt_fields (x : datetime) : list Z :=
  [dt_date x; dt_hour x; dt_minute x; dt_second x; dt_microsecond x].

Definition dt_compare (a b : datetime) : comparison :=
  lex_compare (dt_fields a) (dt_fields b).

(** [a >= b] *)
Definition dt_geb (a b : datetime) : bool :=
  match dt_compare a b with Lt => false | _ => true end.

(** Microseconds from the start of ordinal day 0. *)
Definition dt_micros (x : datetime) : Z :=
  (dt_date x * 86400 + seconds_of_day x) * us_per_second + dt_microsecond x.

End PyTime.

(** ** The equipment models *)

Module Equipment.
Import PyTime.

(** *** Exceptions and computations *)

Inductive Exn : Type :=
| ItemError (message : string)
| TransactionError (message : string)
| IntegrityError
| TypeError
| IndexError
| RecursionError.

Inductive result (A : Type) : Type :=
| Ok (a : A)
| Raise (e : Exn).
Arguments Ok {A} a.
Arguments Raise {A} e.

(** A computation over a state [S]: it returns or raises, and in both
    cases hands back the state it reached. *)
Definition Comp (St A : Type) : Type := St -> result A * St.

Definition ret {St A} (a : A) : Comp St A := fun s => (Ok a, s).

Definition raise {St A} (e : Exn) : Comp St A := fun s => (Raise e, s).

Definition bind {St A B} (m : Comp St A) (k : A -> Comp St B) : Comp St B :=
  fun s =>
    match m s with
    | (Ok a, s') => k a s'
    | (Raise e, s') => (Raise e, s')
    end.

Notation "x <- m ;; k" := (bind m (fun x => k))
  (at level 61, m at next level, right associativity).
Notation "m ;; k" := (bind m (fun _ => k))
  (at level 61, right associativity).

(** [for x in xs: body(x)] *)
Fixpoint for_each {St A} (xs : list A) (body : A -> Comp St unit) : Comp St unit :=
  match xs with
  | [] => ret tt
  | x :: xs' => body x ;; for_each xs' body
  end.

(** [for x in xs: acc = step(acc, x)] *)
Fixpoint fold_each {St A B} (xs : list A) (acc : B) (step : B -> A -> Comp St B)
  : Comp St B :=
  match xs with
  | [] => ret acc
  | x :: xs' => acc' <- step acc x ;; fold_each xs' acc' step
  end.

(** *** Rows *)

Record ItemType := mkItemType {
  manufacturer : string;
  modelname : string;
  kit : bool;
  type_note : string
}.

Definition INSTOCK : Z := 1.
Definition OUT : Z := 2.
Definition REPAIR : Z := 3.

(** An [Item].  The foreign keys [checked_out_by] and [part_of_kit] hold
    the key of the row they point to; [itemtype] holds the row itself, as
    no operation here changes an item type. *)
Record Item := mkItem {
  id : Z;
  itemtype : ItemType;
  serialnumber : string;
  hip_number : string;
  status : option Z;
  checked_out_by : option Z;
  due : option datetime;
  part_of_kit : option Z;
  log : string;
  note : string
}.

Definition set_status (v : option Z) (i : Item) : Item :=
  mkItem (id i) (itemtype i) (serialnumber i) (hip_number i) v
         (checked_out_by i) (due i) (part_of_kit i) (log i) (note i).

Definition set_checked_out_by (v : option Z) (i : Item) : Item :=
  mkItem (id i) (itemtype i) (serialnumber i) (hip_number i) (status i)
         v (due i) (part_of_kit i) (log i) (note i).

Definition set_due (v : option datetime) (i : Item) : Item :=
  mkItem (id i) (itemtype i) (serialnumber i) (hip_number i) (status i)
         (checked_out_by i) v (part_of_kit i) (log i) (note i).

Definition ADD : Z := 1.
Definition CHECKOUT : Z := 2.
Definition CHECKIN : Z := 3.
Definition REPAIR_OUT : Z := 4.
Definition REPAIR_BACK : Z := 5.

Record Transaction := mkTransaction {
  tx_item : Z;
  tx_person : option Z;
  tx_timestamp : datetime;
  tx_kind : option Z;
  tx_note : option string
}.

Definition BASE_PENALTY_AMOUNT : Z := 2500.

Record Penalty := mkPenalty {
  pen_id : Z;
  student : Z;
  when_levied : datetime;
  amount : Z
}.

(** The tables, and how many times the clock has been read.
    [penalty_items] is the join table of [Penalty.items]. *)
Record Database := mkDatabase {
  items : list Item;
  transactions : list Transaction;
  penalties : list Penalty;
  penalty_items : list (Z * Z);
  clock_reads : nat
}.

Definition set_items (rows : list Item) (db : Database) : Database :=
  mkDatabase rows (transactions db) (penalties db) (penalty_items db) (clock_reads db).

Definition set_transactions (rows : list Transaction) (db : Database) : Database :=
  mkDatabase (items db) rows (penalties db) (penalty_items db) (clock_reads db).

Definition set_penalties (rows : list Penalty) (db : Database) : Database :=
  mkDatabase (items db) (transactions db) rows (penalty_items db) (clock_reads db).

Definition set_penalty_items (rows : list (Z * Z)) (db : Database) : Database :=
  mkDatabase (items db) (transactions db) (penalties db) rows (clock_reads db).

Definition tick (db : Database) : Database :=
  mkDatabase (items db) (transactions db) (penalties db) (penalty_items db)
             (S (clock_reads db)).

(** *** Methods: computations over the receiver and the database *)

Definition Method (A : Type) : Type := Comp (Item * Database) A.

Definition get_self : Method Item := fun s => (Ok (fst s), s).

Definition update_self (f : Item -> Item) : Method unit :=
  fun s => (Ok tt, (f (fst s), snd s)).

(** A database computation run from inside a method. *)
Definition on_db {A} (m : Comp Database A) : Method A :=
  fun s => let (r, db') := m (snd s) in (r, (fst s, db')).

(** [obj.m()]: the method runs on [obj]; the caller keeps the database. *)
Definition call {A} (obj : Item) (m : Method A) : Comp Database A :=
  fun db => let (r, s') := m (obj, db) in (r, snd s').

(** *** Strings and values as Python shows them *)

(** Truth value of a string: non-empty. *)
Definition truthy (s : string) : bool :=
  match s with EmptyString => false | _ => true end.

(** [a or b] on strings *)
Definition str_or (a b : string) : string := if truthy a then a else b.

(** ["%s" % n] for an integer *)
Definition str_of_Z (n : Z) : string := NilZero.string_of_int (Z.to_int n).

Definition str_of_status (v : option Z) : string :=
  match v with Some n => str_of_Z n | None => "None" end.

Fixpoint join (sep : string) (xs : list string) : string :=
  match xs with
  | [] => ""
  | [x] => x
  | x :: xs' => (x ++ sep ++ join sep xs')%string
  end.

(** ["%s" % [n1, n2, ...]] for a list of integers *)
Definition str_of_list (ns : list Z) : string :=
  ("[" ++ join ", " (map str_of_Z ns) ++ "]")%string.

(** [ItemType.__unicode__] *)
Definition itemtype_unicode (t : ItemType) : string :=
  (manufacturer t ++ " " ++ modelname t)%string.

(** [Item.number] *)
Definition number (self : Item) : string :=
  str_or (hip_number self) (serialnumber self).

(** [Item.__unicode__] *)
Definition item_unicode (self : Item) : string :=
  (itemtype_unicode (itemtype self) ++ " #" ++ number self)%string.

(** [Item.is_kit] *)
Definition is_kit (self : Item) : bool := kit (itemtype self).

Definition status_is (v : Z) (self : Item) : bool :=
  match status self with Some n => n =? v | None => false end.

(** [Item.is_in_stock] *)
Definition is_in_stock (self : Item) : bool := status_is INSTOCK self.

(** [Item.is_checked_out] *)
Definition is_checked_out (self : Item) : bool := status_is OUT self.

Definition STATUS_CHOICES : list (Z * string) :=
  [(INSTOCK, "in stock"); (OUT, "checked out"); (REPAIR, "out for repair")].

Fixpoint choice_lookup (choices : list (Z * string)) (v : Z) : option string :=
  match choices with
  | [] => None
  | (k, label) :: rest => if k =? v then Some label else choice_lookup rest v
  end.

(** [Item.get_status_display()], which the framework derives from
    [STATUS_CHOICES]: the label of the value, or the value itself when it
    has no label. *)
Definition get_status_display (self : Item) : string :=
  match status self with
  | Some n =>
      match choice_lookup STATUS_CHOICES n with
      | Some label => label
      | None => str_of_Z n
      end
  | None => "None"
  end.

(** *** Queries *)

Definition opt_Z_eqb (a : option Z) (b : Z) : bool :=
  match a with Some n => n =? b | None => false end.

(** [self.contents.all()]: the rows whose [part_of_kit] is [self]. *)
Definition contents_all (self : Item) : Comp Database (list Item) :=
  fun db => (Ok (filter (fun r => opt_Z_eqb (part_of_kit r) (id self)) (items db)), db).

(** [person.item_set.all()]: the rows whose [checked_out_by] is the person. *)
Definition item_set_all (person : Z) : Comp Database (list Item) :=
  fun db => (Ok (filter (fun r => opt_Z_eqb (checked_out_by r) person) (items db)), db).

(** [Q(hip_number=number)|Q(serialnumber=number)] on one row *)
Definition has_number (n : string) (r : Item) : bool :=
  (hip_number r =? n)%string || (serialnumber r =? n)%string.

(** [Item.objects.filter(Q(hip_number=number)|Q(serialnumber=number))] *)
Definition filter_by_number (n : string) : Comp Database (list Item) :=
  fun db => (Ok (filter (has_number n) (items db)), db).

(** *** Writing rows *)

Definition same_pk (a b : Item) : bool := id a =? id b.

(** [unique_together = [("serialnumber", "hip_number")]]: another row has
    the same pair. *)
Definition breaks_unique_together (it : Item) (rows : list Item) : bool :=
  existsb (fun r => negb (same_pk it r)
                    && (serialnumber r =? serialnumber it)%string
                    && (hip_number r =? hip_number it)%string) rows.

(** Update the row with the key of [it], or insert [it]. *)
Definition upsert (it : Item) (rows : list Item) : list Item :=
  if existsb (same_pk it) rows
  then map (fun r => if same_pk it r then it else r) rows
  else rows ++ [it].

(** [super(Item, self).save()]: the framework's [Model.save]. *)
Definition model_save : Method unit :=
  fun s =>
    let (self, db) := s in
    if breaks_unique_together self (items db)
    then (Raise IntegrityError, s)
    else (Ok tt, (self, set_items (upsert self (items db)) db)).

Definition next_id (ks : list Z) : Z := 1 + fold_right Z.max 0 ks.

Section Model.

(** The system clock: [clock n] is what the [n]-th reading returns. *)
Variable clock : nat -> datetime.

(** [datetime.datetime.now()] *)
Definition now : Comp Database datetime :=
  fun db => (Ok (clock (clock_reads db)), tick db).

(** [datetime.date.today()] *)
Definition today : Comp Database date :=
  t <- now ;; ret (dt_date t).

(** [Transaction.objects.create(item=, person=, kind=, note=)]; the
    timestamp defaults to [datetime.datetime.now]. *)
Definition transaction_create (item : Item) (person : option Z) (kind : Z)
           (note : option string) : Comp Database unit :=
  t <- now ;;
  fun db =>
    (Ok tt, set_transactions
              (transactions db ++ [mkTransaction (id item) person t (Some kind) note]) db).

(** [Item.set_due_datetime] *)
Definition set_due_datetime (custom_due_datetime : option datetime) : Method unit :=
  match custom_due_datetime with
  | Some d => update_self (set_due (Some d))
  | None =>
      today <- on_db today ;;
      let (due_day, due_time) :=
        if isoweekday today =? 5
        then (date_add_days today 3, time_hm 7 50)
        else (date_add_days today 1, time_hm 17 50) in
      update_self (set_due (Some (combine due_day due_time)))
  end.

(** [Item.save] *)
Fixpoint save (depth : nat) : Method unit :=
  match depth with
  | O => raise RecursionError
  | S d =>
      self <- get_self ;;
      if negb (truthy (str_or (serialnumber self) (hip_number self)))
      then raise (ItemError "Each item needs either a serial number or a HIP number")
      else
        (if is_kit self
         then
           contents <- on_db (contents_all self) ;;
           for_each contents (fun item =>
             on_db (call item (set_due_datetime (due self) ;; save d)))
         else ret tt) ;;
        model_save
  end.

(** [Item.add_to_stock] *)
Fixpoint add_to_stock (depth : nat) (note : option string) : Method unit :=
  match depth with
  | O => raise RecursionError
  | S d =>
      self <- get_self ;;
      (if negb (is_in_stock self)
       then
         on_db (transaction_create self None ADD note) ;;
         update_self (set_status (Some INSTOCK))
       else ret tt) ;;
      self <- get_self ;;
      if is_kit self
      then
        contents <- on_db (contents_all self) ;;
        for_each contents (fun item =>
          on_db (call item
            (add_to_stock d (Some ("Added as part of kit " ++ item_unicode self)%string) ;;
             save d)))
      else ret tt
  end.

(** [Item.check_out].  [person] is the key of a [Person] row: the
    checkout view resolves the person before it calls. *)
Fixpoint check_out (depth : nat) (person : Z) (custom_due_datetime : option datetime)
         (note : option string) : Method unit :=
  match depth with
  | O => raise RecursionError
  | S d =>
      self <- get_self ;;
      if negb (is_in_stock self)
      then raise (TransactionError
                    ("Item isn't in stock -- " ++ get_status_display self)%string)
      else
        on_db (transaction_create self (Some person) CHECKOUT note) ;;
        update_self (set_status (Some OUT)) ;;
        update_self (set_checked_out_by (Some person)) ;;
        set_due_datetime custom_due_datetime ;;
        save d ;;
        self <- get_self ;;
        if is_kit self
        then
          contents <- on_db (contents_all self) ;;
          for_each contents (fun item =>
            on_db (call item
              (check_out d person None
                 (Some ("Checked out as part of kit " ++ item_unicode self)%string))))
        else ret tt
  end.

(** [Item.check_in] *)
Fixpoint check_in (depth : nat) (note : option string) : Method unit :=
  match depth with
  | O => raise RecursionError
  | S d =>
      self <- get_self ;;
      if negb (is_checked_out self)
      then raise (TransactionError
                    ("Item isn't checked out -- " ++ str_of_status (status self))%string)
      else
        let person := checked_out_by self in
        on_db (transaction_create self person CHECKIN note) ;;
        update_self (set_status (Some INSTOCK)) ;;
        update_self (set_checked_out_by None) ;;
        save d ;;
        self <- get_self ;;
        if is_kit self
        then
          contents <- on_db (contents_all self) ;;
          for_each contents (fun item =>
            on_db (call item
              (check_in d (Some ("Checked in as part of kit " ++ item_unicode self)%string))))
        else ret tt
  end.

(** [Item.days_overdue] *)
Definition days_overdue (as_of : option datetime) : Method Z :=
  as_of <- match as_of with
           | Some t => ret t
           | None => on_db now
           end ;;
  self <- get_self ;;
  if negb (is_checked_out self)
  then ret 0
  else
    match due self with
    | None => raise TypeError
    | Some d =>
        if dt_geb d as_of
        then ret 0
        else ret (td_days (dt_sub as_of d) + 1)
    end.

(** [Item.find_by_number] *)
Definition find_by_number (n : string) : Comp Database Item :=
  matches <- filter_by_number n ;;
  if (1 <? List.length matches)%nat
  then raise (ItemError ("Multiple matches for " ++ n ++ ": "
                           ++ str_of_list (map id matches))%string)
  else if (List.length matches =? 0)%nat
  then raise (ItemError ("No item found with serial/HIP number " ++ n)%string)
  else match nth_error matches 0 with
       | Some m => ret m
       | None => raise IndexError
       end.

(** [Penalty.objects.create(student=, amount=)]; [when_levied] defaults
    to [datetime.datetime.now]. *)
Definition penalty_create (who : Z) (amt : Z) : Comp Database Penalty :=
  t <- now ;;
  fun db =>
    let p := mkPenalty (next_id (map pen_id (penalties db))) who t amt in
    (Ok p, set_penalties (penalties db ++ [p]) db).

(** [penalty.items.add(item)]: a row of the join table, unless it is there. *)
Definition penalty_items_add (p : Penalty) (item : Item) : Comp Database unit :=
  fun db =>
    if existsb (fun r => (fst r =? pen_id p) && (snd r =? id item)) (penalty_items db)
    then (Ok tt, db)
    else (Ok tt, set_penalty_items (penalty_items db ++ [(pen_id p, id item)]) db).

(** [penalty.save()] *)
Definition penalty_save (p : Penalty) : Comp Database unit :=
  fun db =>
    let rows := penalties db in
    if existsb (fun r => pen_id r =? pen_id p) rows
    then (Ok tt, set_penalties
                   (map (fun r => if pen_id r =? pen_id p then p else r) rows) db)
    else (Ok tt, set_penalties (rows ++ [p]) db).

(** [penalty.items.all()], as keys of items *)
Definition penalty_items_of (p : Penalty) (db : Database) : list Z :=
  map snd (filter (fun r => fst r =? pen_id p) (penalty_items db)).

(** [Penalty.levy] *)
Definition levy (who : Z) : Comp Database (option Penalty) :=
  equipment_lent <- item_set_all who ;;
  overdue_days <- fold_each equipment_lent 0 (fun overdue_days item =>
    d <- call item (days_overdue None) ;;
    ret (Z.max overdue_days d)) ;;
  let penalty_amount := BASE_PENALTY_AMOUNT * overdue_days in
  if penalty_amount =? 0
  then ret None
  else
    penalty <- penalty_create who penalty_amount ;;
    equipment_lent <- item_set_all who ;;
    for_each equipment_lent (fun item =>
      d <- call item (days_overdue None) ;;
      if d =? overdue_days
      then penalty_items_add penalty item
      else ret tt) ;;
    penalty_save penalty ;;
    ret (Some penalty).

(** *** Sessions: what a caller of the models can do

    A session holds the database and the model instances the caller has
    in hand.  Every item comes into being through
    [Item.objects.create], the only place where an [Item] is made: status
    [INSTOCK] (the field's default), no borrower, no due timestamp. *)

Record Session := mkSession {
  database : Database;
  objects : list Item
}.

Inductive Action : Type :=
| Create (t : ItemType) (serial hip : string) (parent : option Z)
| Fetch (key : Z)
| AddToStock (i : nat) (note : option string)
| CheckOut (i : nat) (person : Z) (custom_due_datetime : option datetime)
           (note : option string)
| CheckIn (i : nat) (note : option string)
| Save (i : nat).

Fixpoint list_set {A} (i : nat) (x : A) (l : list A) {struct l} : list A :=
  match l, i with
  | [], _ => []
  | _ :: t, O => x :: t
  | h :: t, S j => h :: list_set j x t
  end.

(** [objects[i].m()] *)
Definition invoke (i : nat) (m : Method unit) (s : Session) : Session :=
  match nth_error (objects s) i with
  | None => s
  | Some self =>
      let (_, s') := m (self, database s) in
      mkSession (snd s') (list_set i (fst s') (objects s))
  end.

(** A newly made item, before it is saved. *)
Definition new_item (key : Z) (t : ItemType) (serial hip : string)
           (parent : option Z) : Item :=
  mkItem key t serial hip (Some INSTOCK) None None parent "" "".

Definition perform (depth : nat) (a : Action) (s : Session) : Session :=
  match a with
  | Create t serial hip parent =>
      let obj := new_item (next_id (map id (items (database s)))) t serial hip parent in
      match save depth (obj, database s) with
      | (Ok _, s') => mkSession (snd s') (objects s ++ [fst s'])
      | (Raise _, s') => mkSession (snd s') (objects s)
      end
  | Fetch key =>
      match find (fun r => id r =? key) (items (database s)) with
      | Some r => mkSession (database s) (objects s ++ [r])
      | None => s
      end
  | AddToStock i note => invoke i (add_to_stock depth note) s
  | CheckOut i person custom note => invoke i (check_out depth person custom note) s
  | CheckIn i note => invoke i (check_in depth note) s
  | Save i => invoke i (save depth) s
  end.

Definition empty_database : Database := mkDatabase [] [] [] [] 0.

Definition start : Session := mkSession empty_database [].

(** A script gives each action with the call depth available to it. *)
Fixpoint run_from (s : Session) (script : list (nat * Action)) : Session :=
  match script with
  | [] => s
  | (depth, a) :: rest => run_from (perform depth a s) rest
  end.

Definition run (script : list (nat * Action)) : Session := run_from start script.

(** The items of a session: the rows and the instances in hand. *)
Definition session_items (s : Session) : list Item :=
  items (database s) ++ objects s.

End Model.

(** *** Predicates used to state the properties *)

(** From a state in [P], the computation returns [a] in a state in [Q a],
    or raises [e] in a state in [E e]. *)
Definition triple {St A} (P : St -> Prop) (m : Comp St A)
           (Q : A -> St -> Prop) (E : Exn -> St -> Prop) : Prop :=
  forall s, P s ->
    match m s with
    | (Ok a, s') => Q a s'
    | (Raise e, s') => E e s'
    end.

(** The computation keeps [P], however it ends. *)
Definition keeps {St A} (P : St -> Prop) (m : Comp St A) : Prop :=
  triple P m (fun _ => P) (fun _ => P).

(** A checked-out item has a borrower and a due timestamp. *)
Definition out_has_borrower_and_due (it : Item) : Prop :=
  status it = Some OUT -> checked_out_by it <> None /\ due it <> None.

(** The rows of the item table are in [D]. *)
Definition rows_in (D : list Item -> Prop) (db : Database) : Prop := D (items db).

(** The receiver is in [J] and the rows of the item table are in [D]. *)
Definition state_in (J : Item -> Prop) (D : list Item -> Prop)
           (s : Item * Database) : Prop :=
  J (fst s) /\ rows_in D (snd s).

Definition good_rows : Database -> Prop :=
  rows_in (Forall out_has_borrower_and_due).

Definition good_state : Item * Database -> Prop :=
  state_in out_has_borrower_and_due (Forall out_has_borrower_and_due).



(** What [days_overdue()] is for [it] when the clock reads [t]. *)
Definition overdue_at (t : datetime) (it : Item) : Z :=
  if negb (is_checked_out it) then 0
  else match due it with
       | None => 0
       | Some d => if dt_geb d t then 0 else td_days (dt_sub t d) + 1
       end.

(** What a scan of [lent] finds when it starts at reading [n] of the
    clock: each item takes one reading. *)
Fixpoint scan (clock : nat -> datetime) (n : nat) (lent : list Item) : list Z :=
  match lent with
  | [] => []
  | it :: rest => overdue_at (clock n) it :: scan clock (S n) rest
  end.

Definition max_of (days : list Z) : Z := fold_left Z.max days 0.

(** The keys of the items on which such a scan finds [m] days. *)
Fixpoint scan_hits (clock : nat -> datetime) (n : nat) (m : Z) (lent : list Item)
  : list Z :=
  match lent with
  | [] => []
  | it :: rest =>
      (if overdue_at (clock n) it =? m then [id it] else [])
        ++ scan_hits clock (S n) m rest
  end.

(** The database after [k] more readings of the clock. *)
Definition advance (k : nat) (db : Database) : Database :=
  mkDatabase (items db) (transactions db) (penalties db) (penalty_items db)
             (k + clock_reads db).

(** The three readings of "checked out" agree on an item. *)
Definition checked_out_three_ways (it : Item) : Prop :=
  (is_checked_out it = true <-> status it = Some OUT)
  /\ (status it = Some OUT <-> checked_out_by it <> None /\ due it <> None).

(** An item has a due timestamp only when it is checked out. *)
Definition due_only_when_out (it : Item) : Prop :=
  due it <> None -> status it = Some OUT.

End Equipment.

(** ** Sample data, after the examples in the module's docstring *)

Module Examples.
Import PyTime Equipment.

Definition wednesday_morning : datetime := mkdatetime (mkdate 2009 3 4) 10 0 0 0.

(** A clock that starts on Wednesday 2009-03-04 at 10:00 and advances one
    second per reading. *)
Definition sample_clock (n : nat) : datetime :=
  dt_add wednesday_morning (timedelta_of 0 (Z.of_nat n) 0).

Definition thursday_evening : datetime := mkdatetime (mkdate 2009 3 5) 17 50 0 0.

Definition camera : ItemType := mkItemType "Canon" "5D Mark II" false "".
Definition lens : ItemType := mkItemType "Canon" "24-70mm" false "".
Definition camerakit : ItemType := mkItemType "Hallmark" "5D Kit" true "".

(** Key of the person Bob Dobbs. *)
Definition bob_dobbs : Z := 1.

Definition depth : nat := 50.

(** One camera; it is checked out to Bob. *)
Definition checkout_script : list (nat * Action) :=
  [(depth, Create camera "2345" "" None);
   (depth, CheckOut 0 bob_dobbs None None)].

Definition a_5d_out : Item :=
  mkItem 1 camera "2345" "" (Some OUT) (Some bob_dobbs) (Some thursday_evening)
         None "" "".

(** ... and then added to stock again. *)
Definition restock_script : list (nat * Action) :=
  checkout_script ++ [(depth, AddToStock 0 None)].

Definition a_5d_restocked : Item :=
  mkItem 1 camera "2345" "" (Some INSTOCK) (Some bob_dobbs) (Some thursday_evening)
         None "" "".

(** ... or checked in. *)
Definition checkin_script : list (nat * Action) :=
  checkout_script ++ [(depth, CheckIn 0 None)].

Definition a_5d_returned : Item :=
  mkItem 1 camera "2345" "" (Some INSTOCK) None (Some thursday_evening)
         None "" "".

(** The inventory of the docstring: two cameras, a lens, and a third
    camera whose serial number is that of the second. *)
Definition inventory_script : list (nat * Action) :=
  [(depth, Create camera "2345" "" None);
   (depth, Create camera "4567" "" None);
   (depth, Create lens "8765" "" None);
   (depth, Create camera "4567" "C1" None)].

Definition inventory : Database := database (run sample_clock inventory_script).

Definition camera_2345 : Item := new_item 1 camera "2345" "" None.
Definition camera_4567 : Item := new_item 2 camera "4567" "" None.
Definition lens_8765 : Item := new_item 3 lens "8765" "" None.
Definition camera_C1 : Item := new_item 4 camera "4567" "C1" None.

(** A kit with a camera and a lens in it. *)
Definition kit_script : list (nat * Action) :=
  [(depth, Create camerakit "1974" "" None);
   (depth, Create camera "2345" "" (Some 1));
   (depth, Create lens "8765" "" (Some 1))].


(** The kit is saved as it is, in stock and with no due timestamp. *)
Definition kit_save_script : list (nat * Action) :=
  kit_script ++ [(depth, Save 0)].

Definition new_year_morning : datetime := mkdatetime (mkdate 2010 1 1) 9 0 0 0.

(** The kit is checked out with a due timestamp of the caller's. *)
Definition kit_custom_script : list (nat * Action) :=
  kit_script ++ [(depth, CheckOut 0 bob_dobbs (Some new_year_morning) None)].



Definition kit_lens_out : Item :=
  mkItem 3 lens "8765" "" (Some OUT) (Some bob_dobbs) (Some thursday_evening)
         (Some 1) "" "".

(** A camera that was due on Sunday 2009-03-01 at 17:50. *)
Definition sunday_evening : datetime := mkdatetime (mkdate 2009 3 1) 17 50 0 0.

Definition late_camera : Item :=
  mkItem 1 camera "2345" "" (Some OUT) (Some bob_dobbs) (Some sunday_evening)
         None "" "".

Definition late_db : Database := mkDatabase [late_camera] [] [] [] 0.

End Examples.


(** ** The rest of the equipment module, and what it keeps *)

Module Inventory.
Import PyTime Equipment.

(** Item types are held by value: two of them are the same row when their
    fields agree. *)
Definition itemtype_eqb (a b : ItemType) : bool :=
  (manufacturer a =? manufacturer b)%string
  && (modelname a =? modelname b)%string
  && Bool.eqb (kit a) (kit b)
  && (type_note a =? type_note b)%string.




(** The due timestamp that [set_due_datetime] computes from today's date. *)
Definition default_due (today : date) : datetime :=
  if isoweekday today =? 5
  then combine (date_add_days today 3) (time_hm 7 50)
  else combine (date_add_days today 1) (time_hm 17 50).

(** The row is in the kit with key [k]. *)
Definition in_kit (k : Z) (r : Item) : bool := opt_Z_eqb (part_of_kit r) k.

(** The item has a serial number or a HIP number. *)
Definition has_a_number (it : Item) : Prop :=
  truthy (str_or (serialnumber it) (hip_number it)) = true.

(** The primary key is unique. *)
Definition keys_unique (rows : list Item) : Prop := NoDup (map id rows).

(** [unique_together]: two rows with the same serial number and the same
    HIP number are one row. *)
Definition pairs_unique (rows : list Item) : Prop :=
  forall r1 r2, In r1 rows -> In r2 rows ->
    serialnumber r1 = serialnumber r2 -> hip_number r1 = hip_number r2 ->
    id r1 = id r2.

Definition sound_table (rows : list Item) : Prop :=
  keys_unique rows /\ Forall has_a_number rows /\ pairs_unique rows.

(** [after] is [before] with rows added at the end. *)
Definition grown {A} (before after : list A) : Prop :=
  exists more, after = before ++ more.

(** What the item operations leave alone or only add to: the ledger only
    grows, the penalty tables stay, the clock only advances. *)
Definition beyond_items (db0 db : Database) : Prop :=
  grown (transactions db0) (transactions db)
  /\ penalties db = penalties db0
  /\ penalty_items db = penalty_items db0
  /\ (clock_reads db0 <= clock_reads db)%nat.

(** The first row with the key. *)
Definition row_by_key (k : Z) (db : Database) : option Item :=
  find (fun r => id r =? k) (items db).



(** The rows of the kit [k] changed by [f], the others as they are. *)
Definition update_kit (k : Z) (f : Item -> Item) (rows : list Item) : list Item :=
  map (fun r => if in_kit k r then f r else r) rows.

End Inventory.

(** ** The phase calendar of the people module, which the penalty pages
    of the equipment views read *)

Module Calendar.
Import PyTime.

(** [PHASE_END_DATES]: for each cohort, the last day of each phase. *)
Definition PHASE_END_DATES : list (Z * list (Z * date)) :=
  [(1, [(1, mkdate 2009 11 6); (2, mkdate 2010 1 15);
        (3, mkdate 2010 3 26); (4, mkdate 2010 6 18)]);
   (2, [(1, mkdate 2010 3 12); (2, mkdate 2010 5 21);
        (3, mkdate 2010 7 30); (4, mkdate 2010 10 22)])].

Fixpoint dict_get {V} (d : list (Z * V)) (k : Z) : option V :=
  match d with
  | [] => None
  | (k', v) :: rest => if k' =? k then Some v else dict_get rest k
  end.

(** Order of the pairs (phase, end date): by phase, then by date. *)
Definition pair_leb (a b : Z * date) : bool :=
  (fst a <? fst b) || ((fst a =? fst b) && (snd a <=? snd b)).

Fixpoint insert_desc (x : Z * date) (l : list (Z * date)) : list (Z * date) :=
  match l with
  | [] => [x]
  | y :: rest => if pair_leb y x then x :: l else y :: insert_desc x rest
  end.

(** [sorted(items, reverse=True)] *)
Definition sorted_reverse (l : list (Z * date)) : list (Z * date) :=
  fold_right insert_desc [] l.

(** The loop of [phase_for_cohort_and_date] over the sorted pairs. *)
Definition phase_scan (phase_dates : list (Z * date)) (d : date) : option Z :=
  fold_left (fun result pd => if d <=? snd pd then Some (fst pd) else result)
            phase_dates None.

Inductive lookup (A : Type) : Type :=
| Found (a : A)
| KeyError.
Arguments Found {A} a.
Arguments KeyError {A}.

(** [phase_for_cohort_and_date(cohort, date)], for a date that is given. *)
Definition phase_for_cohort_and_date (cohort : Z) (d : date) : lookup (option Z) :=
  match dict_get PHASE_END_DATES cohort with
  | None => KeyError
  | Some phases => Found (phase_scan (sorted_reverse phases) d)
  end.

End Calendar.

(** ** More sample data: a stockroom with a kit in it *)

Module Stockroom.
Import PyTime Equipment Examples.



(** A camera with neither a serial number nor a HIP number. *)
Definition blank_camera : Item := new_item 1 camera "" "" None.

(** A camera marked as checked out to Bob, with no due timestamp. *)
Definition undated_camera : Item :=
  mkItem 1 camera "2345" "" (Some OUT) (Some bob_dobbs) None None "" "".

Definition undated_db : Database := mkDatabase [undated_camera] [] [] [] 0.

(** The table after the camera has been checked out to Bob. *)
Definition checkout_db : Database := database (run sample_clock checkout_script).



(** The kit is checked out to Bob, and its contents with it. *)
Definition kit_out_script : list (nat * Action) :=
  kit_script ++ [(depth, CheckOut 0 bob_dobbs None None)].

Definition kit_out_db : Database := database (run sample_clock kit_out_script).

Definition a_kit_out : Item :=
  mkItem 1 camerakit "1974" "" (Some OUT) (Some bob_dobbs) (Some thursday_evening)
         None "" "".

Definition kit_camera_out : Item :=
  mkItem 2 camera "2345" "" (Some OUT) (Some bob_dobbs) (Some thursday_evening)
         (Some 1) "" "".

End Stockroom.

(** * Properties *)

Import PyTime Equipment.

(** ** Datetime arithmetic *)

Lemma td_days_dt_sub (a b : datetime) :
  td_days (dt_sub a b) = (dt_micros a - dt_micros b) / us_per_day.
Proof.
  unfold dt_sub, timedelta_of, dt_micros; simpl.
  f_equal. unfold us_per_second. ring.
Qed.

Lemma lex_compare_cons (x y : Z) (xs ys : list Z) :
  lex_compare (x :: xs) (y :: ys) =
  match x ?= y with Eq => lex_compare xs ys | c => c end.
Proof. reflexivity. Qed.

(** On datetimes with fields in range, the tuple order is the order of
    time. *)
Lemma dt_compare_micros (a b : datetime) :
  dt_wf a -> dt_wf b -> dt_compare a b = (dt_micros a ?= dt_micros b).
Proof.
  intros (Ha1 & Ha2 & Ha3 & Ha4) (Hb1 & Hb2 & Hb3 & Hb4).
  unfold dt_compare, dt_fields, dt_micros, seconds_of_day, us_per_second.
  rewrite !lex_compare_cons. simpl lex_compare.
  symmetry.
  destruct (Z.compare_spec (dt_date a) (dt_date b));
  [ destruct (Z.compare_spec (dt_hour a) (dt_hour b));
    [ destruct (Z.compare_spec (dt_minute a) (dt_minute b));
      [ destruct (Z.compare_spec (dt_second a) (dt_second b));
        [ destruct (Z.compare_spec (dt_microsecond a) (dt_microsecond b))
        | | ] | | ] | | ] | | ];
  try (apply Z.compare_eq_iff; lia);
  try (apply Z.compare_lt_iff; lia);
  try (apply Z.compare_gt_iff; lia).
Qed.

Lemma dt_geb_micros (a b : datetime) :
  dt_wf a -> dt_wf b -> dt_geb a b = (dt_micros b <=? dt_micros a).
Proof.
  intros Ha Hb. unfold dt_geb. rewrite (dt_compare_micros a b Ha Hb).
  destruct (Z.compare_spec (dt_micros a) (dt_micros b));
    symmetry; [apply Z.leb_le|apply Z.leb_gt|apply Z.leb_le]; lia.
Qed.

Lemma dt_add_micros (a : datetime) (d : timedelta) :
  dt_micros (dt_add a d) =
  dt_micros a + (td_days d * 86400 + td_seconds d) * us_per_second + td_microseconds d.
Proof.
  unfold dt_add, timedelta_of, dt_micros, seconds_of_day, us_per_day, us_per_second;
    simpl.
  Z.to_euclidean_division_equations. lia.
Qed.

Lemma dt_add_wf (a : datetime) (d : timedelta) : dt_wf (dt_add a d).
Proof.
  unfold dt_wf, dt_add, timedelta_of, us_per_day, us_per_second; simpl.
  Z.to_euclidean_division_equations. lia.
Qed.

(** Three days after a Friday is a Monday. *)
Lemma friday_plus_three (d : date) :
  isoweekday d = 5 -> isoweekday (date_add_days d 3) = 1.
Proof.
  unfold isoweekday, date_add_days.
  destruct (Z.eqb_spec (d mod 7) 0); [lia|]. intros Hd.
  replace ((d + 3) mod 7) with 1 by (Z.to_euclidean_division_equations; lia).
  reflexivity.
Qed.

(** ** Single-item operations *)

Section ItemFacts.

Variable clock : nat -> datetime.


Lemma days_overdue_eval (self : Item) (db : Database) (T as_of : datetime) :
  due self = Some T -> dt_wf T -> dt_wf as_of ->
  days_overdue clock (Some as_of) (self, db) =
  (Ok (if negb (is_checked_out self) || (dt_micros as_of <=? dt_micros T)
       then 0
       else (dt_micros as_of - dt_micros T) / us_per_day + 1),
   (self, db)).
Proof.
  intros Hdue HT Has.
  unfold days_overdue, bind, ret, get_self; cbn [fst snd].
  destruct (is_checked_out self); cbn [negb orb]; [|reflexivity].
  rewrite Hdue, (dt_geb_micros T as_of HT Has).
  destruct (dt_micros as_of <=? dt_micros T); [reflexivity|].
  now rewrite td_days_dt_sub.
Qed.

Lemma days_overdue_late (self : Item) (db : Database) (T as_of : datetime) (k : Z) :
  due self = Some T -> dt_wf T -> dt_wf as_of -> is_checked_out self = true ->
  dt_micros as_of = dt_micros T + k -> 0 < k ->
  days_overdue clock (Some as_of) (self, db) = (Ok (k / us_per_day + 1), (self, db)).
Proof.
  intros Hdue HT Has Hout Hk Hpos.
  rewrite (days_overdue_eval self db T as_of Hdue HT Has), Hout.
  cbn [negb orb].
  destruct (Z.leb_spec (dt_micros as_of) (dt_micros T)); [lia|].
  replace (dt_micros as_of - dt_micros T) with k by lia.
  reflexivity.
Qed.

(** C3.  With due timestamp [T], [days_overdue(as_of)] is 0 when the item
    is not checked out or [as_of] is not after [T], and otherwise the
    number of whole days from [T] to [as_of], plus one.  For a checked-out
    item it is 0 at [T], 1 a minute after [T], and 2 a day and a minute
    after [T]. *)
Theorem days_overdue_spec (self : Item) (db : Database) (T as_of : datetime) :
  due self = Some T -> dt_wf T -> dt_wf as_of ->
  days_overdue clock (Some as_of) (self, db) =
    (Ok (if negb (is_checked_out self) || (dt_micros as_of <=? dt_micros T)
         then 0
         else (dt_micros as_of - dt_micros T) / us_per_day + 1),
     (self, db))
  /\ (is_checked_out self = true ->
      days_overdue clock (Some T) (self, db) = (Ok 0, (self, db))
      /\ days_overdue clock (Some (dt_add T (td_minutes 1))) (self, db)
         = (Ok 1, (self, db))
      /\ days_overdue clock (Some (dt_add T (td_days_minutes 1 1))) (self, db)
         = (Ok 2, (self, db))).
Proof.
  intros Hdue HT Has. split; [now apply days_overdue_eval|].
  intros Hout. repeat split.
  - rewrite (days_overdue_eval self db T T Hdue HT HT), Hout, Z.leb_refl.
    reflexivity.
  - apply (days_overdue_late self db T _ 60000000 Hdue HT (dt_add_wf T _) Hout);
      [|lia].
    rewrite dt_add_micros, <- Z.add_assoc. reflexivity.
  - apply (days_overdue_late self db T _ 86460000000 Hdue HT (dt_add_wf T _) Hout);
      [|lia].
    rewrite dt_add_micros, <- Z.add_assoc. reflexivity.
Qed.

(** C4.  [check_out] on an item that is not in stock raises a
    [TransactionError] whose message ends with the display of the item's
    status; the item and every table are as they were, so no transaction
    has been recorded and status, borrower and due timestamp are
    unchanged. *)
Theorem check_out_not_in_stock (d : nat) (person : Z) (custom : option datetime)
        (note : option string) (self : Item) (db : Database) :
  status self <> Some INSTOCK ->
  check_out clock (S d) person custom note (self, db) =
  (Raise (TransactionError ("Item isn't in stock -- " ++ get_status_display self)%string),
   (self, db)).
Proof.
  intros Hst.
  assert (Hin : is_in_stock self = false).
  { unfold is_in_stock, status_is. destruct (status self) as [n|]; [|reflexivity].
    apply Z.eqb_neq. intros ->. now apply Hst. }
  simpl. unfold bind, get_self; simpl. rewrite Hin. reflexivity.
Qed.

End ItemFacts.

(** ** Lookup by number *)

Lemma has_number_true (n : string) (r : Item) :
  has_number n r = true <-> hip_number r = n \/ serialnumber r = n.
Proof.
  unfold has_number. rewrite orb_true_iff, !String.eqb_eq. reflexivity.
Qed.

Lemma filter_none {A} (f : A -> bool) (l : list A) :
  (forall x, In x l -> f x = false) -> filter f l = [].
Proof.
  induction l as [|a l IH]; intros H; simpl; [reflexivity|].
  rewrite (H a (or_introl eq_refl)). apply IH. intros x Hx. apply H. now right.
Qed.

Lemma no_number_false (n : string) (l : list Item) :
  (forall r, In r l -> hip_number r <> n /\ serialnumber r <> n) ->
  forall r, In r l -> has_number n r = false.
Proof.
  intros H r Hr. destruct (has_number n r) eqn:E; [|reflexivity].
  apply has_number_true in E. destruct (H r Hr). tauto.
Qed.

(** C5.  [find_by_number n] leaves the tables alone and
    - raises the not-found [ItemError] when no row has [n] as HIP number or
      serial number;
    - returns the row when exactly one row has;
    - raises the multiple-matches [ItemError], whose message lists the
      keys of all the matching rows, when two rows have. *)
Theorem find_by_number_spec (n : string) (db : Database) :
  snd (find_by_number n db) = db
  /\ ((forall r, In r (items db) -> hip_number r <> n /\ serialnumber r <> n) ->
      fst (find_by_number n db)
      = Raise (ItemError ("No item found with serial/HIP number " ++ n)%string))
  /\ (forall l1 m l2,
        items db = l1 ++ m :: l2 ->
        hip_number m = n \/ serialnumber m = n ->
        (forall r, In r (l1 ++ l2) -> hip_number r <> n /\ serialnumber r <> n) ->
        fst (find_by_number n db) = Ok m)
  /\ (forall l1 m1 l2 m2 l3,
        items db = l1 ++ m1 :: l2 ++ m2 :: l3 ->
        hip_number m1 = n \/ serialnumber m1 = n ->
        hip_number m2 = n \/ serialnumber m2 = n ->
        exists keys,
          fst (find_by_number n db)
          = Raise (ItemError ("Multiple matches for " ++ n ++ ": "
                                ++ str_of_list keys)%string)
          /\ keys = map id (filter (has_number n) (items db))
          /\ In (id m1) keys /\ In (id m2) keys).
Proof.
  unfold find_by_number, filter_by_number, bind, raise, ret; simpl.
  repeat split.
  - destruct (filter (has_number n) (items db)) as [|a [|b l]]; reflexivity.
  - intros H. rewrite (filter_none _ _ (no_number_false n _ H)). reflexivity.
  - intros l1 m l2 Hdb Hm Hrest. rewrite Hdb, filter_app. simpl.
    apply has_number_true in Hm. rewrite Hm.
    rewrite (filter_none (has_number n) l1), (filter_none (has_number n) l2).
    + reflexivity.
    + intros r Hr. apply (no_number_false n _ Hrest). apply in_or_app. now right.
    + intros r Hr. apply (no_number_false n _ Hrest). apply in_or_app. now left.
  - intros l1 m1 l2 m2 l3 Hdb H1 H2.
    exists (map id (filter (has_number n) (items db))).
    apply has_number_true in H1, H2.
    assert (In1 : In m1 (filter (has_number n) (items db))).
    { apply filter_In. split; [|exact H1]. rewrite Hdb. apply in_or_app.
      right. now left. }
    assert (In2 : In m2 (filter (has_number n) (items db))).
    { apply filter_In. split; [|exact H2]. rewrite Hdb. apply in_or_app.
      right. right. apply in_or_app. right. now left. }
    assert (Hlen : (1 <? List.length (filter (has_number n) (items db)))%nat = true).
    { rewrite Hdb, filter_app. simpl. rewrite H1, filter_app. simpl. rewrite H2.
      rewrite length_app. simpl. rewrite length_app. simpl.
      apply Nat.ltb_lt. lia. }
    rewrite Hlen. repeat split; try reflexivity; now apply in_map.
Qed.

(** ** Rules for computations *)

Section Rules.

Context {St : Type}.

Lemma triple_ret {A} (P : St -> Prop) (a : A) Q E :
  (forall s, P s -> Q a s) -> triple P (ret a) Q E.
Proof. intros H s Hs. simpl. auto. Qed.

Lemma triple_raise {A} (P : St -> Prop) (e : Exn) (Q : A -> St -> Prop) E :
  (forall s, P s -> E e s) -> triple P (@raise St A e) Q E.
Proof. intros H s Hs. simpl. auto. Qed.

Lemma triple_bind {A B} (P : St -> Prop) (m : Comp St A) (k : A -> Comp St B)
      (R : A -> St -> Prop) Q E :
  triple P m R E -> (forall a, triple (R a) (k a) Q E) -> triple P (bind m k) Q E.
Proof.
  intros Hm Hk s Hs. unfold bind. specialize (Hm s Hs).
  destruct (m s) as [[a|e] s']; [apply (Hk a s' Hm)|exact Hm].
Qed.

Lemma triple_weaken {A} (P P' : St -> Prop) (m : Comp St A)
      (Q Q' : A -> St -> Prop) (E E' : Exn -> St -> Prop) :
  triple P' m Q' E' ->
  (forall s, P s -> P' s) ->
  (forall a s, Q' a s -> Q a s) ->
  (forall e s, E' e s -> E e s) ->
  triple P m Q E.
Proof.
  intros Hm HP HQ HE s Hs. specialize (Hm s (HP s Hs)).
  destruct (m s) as [[a|e] s']; auto.
Qed.

Lemma triple_for_each {A} (I : St -> Prop) (xs : list A) (body : A -> Comp St unit) E :
  (forall x, In x xs -> triple I (body x) (fun _ => I) E) ->
  triple I (for_each xs body) (fun _ => I) E.
Proof.
  induction xs as [|x xs IH]; intros H; simpl.
  - apply triple_ret. auto.
  - eapply triple_bind; [apply H; now left|].
    intros u. apply IH. intros y Hy. apply H. now right.
Qed.

Lemma keeps_bind {A B} (P : St -> Prop) (m : Comp St A) (k : A -> Comp St B) :
  keeps P m -> (forall a, keeps P (k a)) -> keeps P (bind m k).
Proof. intros Hm Hk. eapply triple_bind; [exact Hm|exact Hk]. Qed.

Lemma keeps_ret {A} (P : St -> Prop) (a : A) : keeps P (ret a).
Proof. apply triple_ret. auto. Qed.

Lemma keeps_raise {A} (P : St -> Prop) (e : Exn) : keeps P (@raise St A e).
Proof. apply triple_raise. auto. Qed.

Lemma keeps_for_each {A} (P : St -> Prop) (xs : list A) (body : A -> Comp St unit) :
  (forall x, In x xs -> keeps P (body x)) -> keeps P (for_each xs body).
Proof. apply triple_for_each. Qed.

End Rules.

Lemma triple_get_self (P : Item * Database -> Prop) Q E :
  (forall s, P s -> Q (fst s) s) -> triple P get_self Q E.
Proof. intros H s Hs. simpl. auto. Qed.

Lemma triple_update_self (P : Item * Database -> Prop) (f : Item -> Item) Q E :
  (forall s, P s -> Q tt (f (fst s), snd s)) -> triple P (update_self f) Q E.
Proof. intros H s Hs. simpl. auto. Qed.

Lemma triple_on_db {A} (P : Item * Database -> Prop) (m : Comp Database A) Q E :
  (forall self, triple (fun db => P (self, db)) m
                       (fun a db => Q a (self, db)) (fun e db => E e (self, db))) ->
  triple P (on_db m) Q E.
Proof.
  intros H [self db] Hs. unfold on_db. simpl. specialize (H self db Hs).
  destruct (m db) as [[a|e] db']; exact H.
Qed.

Lemma triple_call {A} (obj : Item) (m : Method A) (P : Database -> Prop) Q E :
  triple (fun s => fst s = obj /\ P (snd s)) m
         (fun a s => Q a (snd s)) (fun e s => E e (snd s)) ->
  triple P (call obj m) Q E.
Proof.
  intros H db Hdb. unfold call. specialize (H (obj, db) (conj eq_refl Hdb)).
  destruct (m (obj, db)) as [[a|e] s']; exact H.
Qed.

(** ** Properties of rows that the kit cascades keep

    [J] is a property of an item that assigning a due timestamp keeps;
    [D] is a property of the item table that holds [J] of each row and
    that writing an item in [J] keeps. *)

Section Cascade.

Variable clock : nat -> datetime.
Variable J : Item -> Prop.
Variable D : list Item -> Prop.

Hypothesis D_upsert : forall it rows, J it -> D rows -> D (upsert it rows).
Hypothesis D_row : forall rows r, D rows -> In r rows -> J r.
Hypothesis J_set_due : forall it t, J it -> J (set_due (Some t) it).

Lemma model_save_in : keeps (state_in J D) model_save.
Proof.
  intros [self db] [Hself Hdb]. unfold model_save.
  destruct (breaks_unique_together self (items db)); simpl.
  - split; assumption.
  - split; [assumption|]. apply D_upsert; assumption.
Qed.

Lemma set_due_datetime_run (c : option datetime) (s : Item * Database) :
  exists t db',
    set_due_datetime clock c s = (Ok tt, (set_due (Some t) (fst s), db'))
    /\ items db' = items (snd s).
Proof.
  destruct s as [self db]. destruct c as [t|].
  - exists t, db. split; reflexivity.
  - unfold set_due_datetime, bind, on_db, today, now, bind, ret; simpl.
    destruct (isoweekday (dt_date (clock (clock_reads db))) =? 5);
      eexists; eexists; split; reflexivity.
Qed.

Lemma set_due_datetime_in (c : option datetime) :
  keeps (state_in J D) (set_due_datetime clock c).
Proof.
  intros s [Hself Hrows].
  destruct (set_due_datetime_run c s) as (t & db' & -> & Hitems).
  split; simpl; [now apply J_set_due|].
  unfold rows_in. now rewrite Hitems.
Qed.

Lemma transaction_create_in (item : Item) (person : option Z) (kind : Z)
      (note : option string) :
  keeps (rows_in D) (transaction_create clock item person kind note).
Proof. intros db Hdb. exact Hdb. Qed.

Lemma on_db_in {A} (m : Comp Database A) :
  keeps (rows_in D) m -> keeps (state_in J D) (on_db m).
Proof.
  intros Hm. apply triple_on_db. intros self db [Hself Hdb].
  specialize (Hm db Hdb). simpl in Hself.
  destruct (m db) as [[a|e] db']; split; assumption.
Qed.

Lemma call_in {A} (obj : Item) (m : Method A) :
  J obj -> keeps (state_in J D) m -> keeps (rows_in D) (call obj m).
Proof.
  intros Hobj Hm. apply triple_call. intros [self db] [Heq Hdb]. simpl in *.
  subst self. specialize (Hm (obj, db) (conj Hobj Hdb)).
  destruct (m (obj, db)) as [[a|e] s']; apply Hm.
Qed.

Lemma contents_all_in (self : Item) :
  triple (state_in J D) (on_db (contents_all self))
         (fun rows s => state_in J D s /\ Forall J rows)
         (fun _ _ => False).
Proof.
  intros [it db] [Hit Hdb]. simpl. split; [split; assumption|].
  apply Forall_forall. intros r Hr. apply filter_In in Hr.
  apply (D_row _ r Hdb (proj1 Hr)).
Qed.

(** The loop over the contents of a kit keeps the property when the
    method called on each item does. *)
Lemma kit_loop_in (self : Item) (m : Method unit) :
  keeps (state_in J D) m ->
  keeps (state_in J D)
    (contents <- on_db (contents_all self) ;;
     for_each contents (fun item => on_db (call item m))).
Proof.
  intros Hm.
  apply triple_bind with (R := fun rows s => state_in J D s /\ Forall J rows).
  - eapply triple_weaken; [apply (contents_all_in self)|auto|auto|].
    intros e s [].
  - intros rows. simpl.
    eapply triple_weaken with
      (P' := fun s => state_in J D s /\ Forall J rows)
      (Q' := fun _ s => state_in J D s /\ Forall J rows)
      (E' := fun _ s => state_in J D s); auto; [|tauto].
    apply triple_for_each. intros item Hitem s [Hs Hrows].
    assert (Hgood : J item) by apply (proj1 (Forall_forall _ _) Hrows item Hitem).
    pose proof (on_db_in _ (call_in item m Hgood Hm) s Hs) as H.
    destruct (on_db (call item m) s) as [[a|e] s']; [split|]; assumption.
Qed.

Lemma save_in (d : nat) : keeps (state_in J D) (save clock d).
Proof.
  induction d as [|d IH]; simpl; [apply keeps_raise|].
  apply keeps_bind; [apply triple_get_self; auto|]. intros self.
  destruct (negb (truthy (str_or (serialnumber self) (hip_number self))));
    [apply keeps_raise|].
  apply keeps_bind; [|intros; apply model_save_in].
  destruct (is_kit self); [|apply keeps_ret].
  apply kit_loop_in.
  apply keeps_bind; [apply set_due_datetime_in|intros; apply IH].
Qed.

End Cascade.

(** ** A checked-out item has a borrower and a due timestamp *)

Lemma upsert_Forall (P : Item -> Prop) (it : Item) (rows : list Item) :
  P it -> Forall P rows -> Forall P (upsert it rows).
Proof.
  intros Hit Hrows. unfold upsert.
  destruct (existsb (same_pk it) rows).
  - induction Hrows as [|r rows Hr _ IH]; simpl; constructor; auto.
    destruct (same_pk it r); assumption.
  - apply Forall_app. split; [assumption|]. constructor; [assumption|constructor].
Qed.

Lemma Forall_row (P : Item -> Prop) (rows : list Item) (r : Item) :
  Forall P rows -> In r rows -> P r.
Proof. intros H. apply (proj1 (Forall_forall _ _) H). Qed.

Lemma good_set_due (it : Item) (t : datetime) :
  out_has_borrower_and_due it -> out_has_borrower_and_due (set_due (Some t) it).
Proof.
  intros H Hst. split; [exact (proj1 (H Hst))|discriminate].
Qed.

Section Invariant.

Variable clock : nat -> datetime.

Lemma save_keeps (d : nat) : keeps good_state (save clock d).
Proof.
  apply (save_in clock out_has_borrower_and_due (Forall out_has_borrower_and_due)).
  - apply upsert_Forall.
  - apply Forall_row.
  - apply good_set_due.
Qed.

Lemma kit_loop_keeps (self : Item) (m : Method unit) :
  keeps good_state m ->
  keeps good_state
    (contents <- on_db (contents_all self) ;;
     for_each contents (fun item => on_db (call item m))).
Proof. apply (kit_loop_in out_has_borrower_and_due (Forall out_has_borrower_and_due)), Forall_row. Qed.

Lemma transaction_create_keeps (item : Item) (person : option Z) (kind : Z)
      (note : option string) :
  keeps good_state (on_db (transaction_create clock item person kind note)).
Proof. apply on_db_in, transaction_create_in. Qed.

Lemma update_status_in_stock :
  triple good_state (update_self (set_status (Some INSTOCK)))
         (fun _ s => good_state s /\ status (fst s) = Some INSTOCK)
         (fun _ => good_state).
Proof.
  apply triple_update_self. intros [it db] [Hit Hdb].
  split; [split; [intros H; discriminate H|exact Hdb]|reflexivity].
Qed.

Lemma update_borrower_in_stock :
  triple (fun s => good_state s /\ status (fst s) = Some INSTOCK)
         (update_self (set_checked_out_by None))
         (fun _ => good_state) (fun _ => good_state).
Proof.
  apply triple_update_self. intros [self db] [[Hself Hdb] Hst]. split; [|exact Hdb].
  simpl in *. intros H. unfold set_checked_out_by in H. simpl in H.
  rewrite Hst in H. discriminate H.
Qed.

Lemma add_to_stock_keeps (d : nat) (note : option string) :
  keeps good_state (add_to_stock clock d note).
Proof.
  revert note. induction d as [|d IH]; intros note; simpl; [apply keeps_raise|].
  apply keeps_bind; [apply triple_get_self; auto|]. intros self.
  apply keeps_bind.
  - destruct (negb (is_in_stock self)); [|apply keeps_ret].
    apply keeps_bind; [apply transaction_create_keeps|]. intros _.
    eapply triple_weaken; [apply update_status_in_stock|auto| |auto].
    intros a s H. apply H.
  - intros _. apply keeps_bind; [apply triple_get_self; auto|]. intros self'.
    destruct (is_kit self'); [|apply keeps_ret].
    apply kit_loop_keeps.
    apply keeps_bind; [apply IH|intros; apply save_keeps].
Qed.

Lemma check_out_keeps (d : nat) (person : Z) (custom : option datetime)
      (note : option string) :
  keeps good_state (check_out clock d person custom note).
Proof.
  revert custom note. induction d as [|d IH]; intros custom note; simpl;
    [apply keeps_raise|].
  apply keeps_bind; [apply triple_get_self; auto|]. intros self.
  destruct (negb (is_in_stock self)); [apply keeps_raise|].
  apply keeps_bind; [apply transaction_create_keeps|]. intros _.
  (* the three assignments: the item is good again once all are made *)
  apply triple_bind with (R := fun _ s => good_rows (snd s)).
  { apply triple_update_self. intros s Hs. apply Hs. }
  intros _.
  apply triple_bind with
    (R := fun _ s => state_in (fun it => checked_out_by it <> None) (Forall out_has_borrower_and_due) s).
  { apply triple_update_self. intros s Hs. split; [discriminate|exact Hs]. }
  intros _.
  apply triple_bind with (R := fun _ => good_state).
  { intros s [Hby Hrows].
    destruct (set_due_datetime_run clock custom s) as (t & db' & -> & Hitems).
    split; simpl.
    - intros _. split; [exact Hby|discriminate].
    - unfold rows_in. rewrite Hitems. exact Hrows. }
  intros _.
  apply keeps_bind; [apply save_keeps|]. intros _.
  apply keeps_bind; [apply triple_get_self; auto|]. intros self'.
  destruct (is_kit self'); [|apply keeps_ret].
  apply kit_loop_keeps. apply IH.
Qed.

Lemma check_in_keeps (d : nat) (note : option string) :
  keeps good_state (check_in clock d note).
Proof.
  revert note. induction d as [|d IH]; intros note; simpl; [apply keeps_raise|].
  apply keeps_bind; [apply triple_get_self; auto|]. intros self.
  destruct (negb (is_checked_out self)); [apply keeps_raise|].
  apply keeps_bind; [apply transaction_create_keeps|]. intros _.
  apply triple_bind with
    (R := fun _ s => good_state s /\ status (fst s) = Some INSTOCK);
    [apply update_status_in_stock|]. intros _.
  apply triple_bind with (R := fun _ => good_state);
    [apply update_borrower_in_stock|]. intros _.
  apply keeps_bind; [apply save_keeps|]. intros _.
  apply keeps_bind; [apply triple_get_self; auto|]. intros self'.
  destruct (is_kit self'); [|apply keeps_ret].
  apply kit_loop_keeps. apply IH.
Qed.

Lemma list_set_Forall {A} (P : A -> Prop) (i : nat) (x : A) (l : list A) :
  P x -> Forall P l -> Forall P (list_set i x l).
Proof.
  intros Hx Hl. revert i. induction Hl as [|h t Hh Ht IH]; intros i; simpl.
  - constructor.
  - destruct i; constructor; auto.
Qed.

Lemma invoke_good (i : nat) (m : Method unit) (s : Session) :
  keeps good_state m ->
  Forall out_has_borrower_and_due (session_items s) ->
  Forall out_has_borrower_and_due (session_items (invoke i m s)).
Proof.
  intros Hm Hs. unfold invoke.
  destruct (nth_error (objects s) i) as [self|] eqn:Hi; [|exact Hs].
  unfold session_items in *. apply Forall_app in Hs. destruct Hs as [Hdb Hobjs].
  assert (Hself : out_has_borrower_and_due self)
    by (apply (proj1 (Forall_forall _ _) Hobjs), (nth_error_In _ _ Hi)).
  specialize (Hm (self, database s) (conj Hself Hdb)).
  destruct (m (self, database s)) as [[a|e] [self' db']]; simpl;
    destruct Hm as [Hself' Hdb']; apply Forall_app;
    (split; [exact Hdb'|apply list_set_Forall; assumption]).
Qed.

Lemma perform_good (depth : nat) (a : Action) (s : Session) :
  Forall out_has_borrower_and_due (session_items s) ->
  Forall out_has_borrower_and_due (session_items (perform clock depth a s)).
Proof.
  intros Hs. destruct a as [t serial hip parent|key|i note|i p c note|i note|i]; simpl.
  - unfold session_items in *. apply Forall_app in Hs. destruct Hs as [Hdb Hobjs].
    set (obj := new_item _ t serial hip parent).
    assert (Hobj : out_has_borrower_and_due obj) by (intros H; discriminate H).
    pose proof (save_keeps depth (obj, database s) (conj Hobj Hdb)) as H.
    destruct (save clock depth (obj, database s)) as [[u|e] [obj' db']]; simpl;
      destruct H as [Hobj' Hdb']; apply Forall_app; split; try assumption.
    apply Forall_app. split; [assumption|]. constructor; [assumption|constructor].
  - destruct (find (fun r => id r =? key) (items (database s))) as [r|] eqn:Hf;
      [|exact Hs].
    unfold session_items in *. simpl. apply Forall_app in Hs.
    destruct Hs as [Hdb Hobjs]. apply Forall_app. split; [assumption|].
    apply Forall_app. split; [assumption|]. constructor; [|constructor].
    apply (proj1 (Forall_forall _ _) Hdb), (find_some _ _ Hf).
  - apply invoke_good; [apply add_to_stock_keeps|exact Hs].
  - apply invoke_good; [apply check_out_keeps|exact Hs].
  - apply invoke_good; [apply check_in_keeps|exact Hs].
  - apply invoke_good; [apply save_keeps|exact Hs].
Qed.

Lemma run_from_good (script : list (nat * Action)) (s : Session) :
  Forall out_has_borrower_and_due (session_items s) ->
  Forall out_has_borrower_and_due (session_items (run_from clock s script)).
Proof.
  revert s. induction script as [|[depth a] rest IH]; intros s Hs; simpl.
  - exact Hs.
  - apply IH, perform_good, Hs.
Qed.

(** In every session, each row and each instance in hand that is checked
    out has a borrower and a due timestamp. *)
Lemma run_good (script : list (nat * Action)) :
  Forall out_has_borrower_and_due (session_items (run clock script)).
Proof. apply run_from_good. constructor. Qed.

End Invariant.

(** ** What a method does to its receiver *)

Section Receiver.

Variable clock : nat -> datetime.

Lemma on_db_self {A} (x : Item) (m : Comp Database A) :
  keeps (fun s => fst s = x) (on_db m).
Proof.
  intros [self db] Hs. unfold on_db. simpl.
  destruct (m db) as [[a|e] db']; exact Hs.
Qed.

Lemma kit_loop_self (x self : Item) (m : Method unit) :
  keeps (fun s => fst s = x)
    (contents <- on_db (contents_all self) ;;
     for_each contents (fun item => on_db (call item m))).
Proof.
  apply keeps_bind; [apply on_db_self|]. intros rows.
  apply keeps_for_each. intros item _. apply on_db_self.
Qed.

Lemma model_save_self (x : Item) : keeps (fun s => fst s = x) model_save.
Proof.
  intros [self db] Hs. unfold model_save.
  destruct (breaks_unique_together self (items db)); exact Hs.
Qed.

(** [save] does not assign to the fields of its receiver. *)
Lemma save_self (x : Item) (d : nat) : keeps (fun s => fst s = x) (save clock d).
Proof.
  destruct d as [|d]; simpl; [apply keeps_raise|].
  apply keeps_bind; [apply triple_get_self; auto|]. intros self.
  destruct (negb (truthy (str_or (serialnumber self) (hip_number self))));
    [apply keeps_raise|].
  apply keeps_bind; [|intros; apply model_save_self].
  destruct (is_kit self); [apply kit_loop_self|apply keeps_ret].
Qed.

(** When [check_in] returns, its receiver is in stock with no borrower,
    and every other field, the due timestamp among them, is as it was. *)
Lemma check_in_receiver (d : nat) (note : option string) (x : Item) :
  triple (fun s => fst s = x) (check_in clock d note)
         (fun _ s => fst s = set_checked_out_by None (set_status (Some INSTOCK) x))
         (fun _ _ => True).
Proof.
  destruct d as [|d]; simpl; [apply triple_raise; auto|].
  apply triple_bind with (R := fun _ s => fst s = x);
    [apply triple_get_self; auto|]. intros self.
  destruct (negb (is_checked_out self)); [apply triple_raise; auto|].
  apply triple_bind with (R := fun _ s => fst s = x).
  { eapply triple_weaken; [apply (on_db_self x)|auto|auto|auto]. }
  intros _.
  apply triple_bind with (R := fun _ s => fst s = set_status (Some INSTOCK) x).
  { apply triple_update_self. intros s ->. reflexivity. }
  intros _.
  apply triple_bind with
    (R := fun _ s => fst s = set_checked_out_by None (set_status (Some INSTOCK) x)).
  { apply triple_update_self. intros s ->. reflexivity. }
  intros _.
  apply triple_weaken with
    (P' := fun s => fst s = set_checked_out_by None (set_status (Some INSTOCK) x))
    (Q' := fun _ s => fst s = set_checked_out_by None (set_status (Some INSTOCK) x))
    (E' := fun _ s => fst s = set_checked_out_by None (set_status (Some INSTOCK) x));
    [|auto|auto|auto].
  apply keeps_bind; [apply save_self|]. intros _.
  apply keeps_bind; [apply triple_get_self; auto|]. intros self'.
  destruct (is_kit self'); [apply kit_loop_self|apply keeps_ret].
Qed.

End Receiver.

(** ** Items in reachable sessions *)

Section Reachable.

Variable clock : nat -> datetime.

Lemma is_checked_out_iff (it : Item) :
  is_checked_out it = true <-> status it = Some OUT.
Proof.
  unfold is_checked_out, status_is. destruct (status it) as [n|].
  - rewrite Z.eqb_eq. split; [intros ->; reflexivity|intros H; now injection H].
  - split; discriminate.
Qed.

(** For every item of every session reached from the empty one by
    creating items and by [add_to_stock], [check_out], [check_in] and
    [save]: [is_checked_out] is true exactly when the status is [OUT], and
    an item whose status is [OUT] has a borrower and a due timestamp. *)
Theorem checked_out_has_borrower_and_due (script : list (nat * Action)) (it : Item) :
  In it (session_items (run clock script)) ->
  (is_checked_out it = true <-> status it = Some OUT)
  /\ (status it = Some OUT -> checked_out_by it <> None /\ due it <> None).
Proof.
  intros Hin. split; [apply is_checked_out_iff|].
  apply (proj1 (Forall_forall _ _) (run_good clock script) it Hin).
Qed.

(** C10, amended.  For every item of every reachable session: if its
    status is [OUT] it has a due timestamp; and when [check_in] on it
    returns, the item is in stock with no borrower and its due timestamp
    is the one it had, which is not null. *)
Theorem check_in_keeps_due (script : list (nat * Action)) (it : Item) :
  In it (session_items (run clock script)) ->
  (status it = Some OUT -> due it <> None)
  /\ (forall d note db self' db',
        check_in clock d note (it, db) = (Ok tt, (self', db')) ->
        status self' = Some INSTOCK /\ checked_out_by self' = None
        /\ due self' = due it /\ due self' <> None).
Proof.
  intros Hin.
  pose proof (proj1 (Forall_forall _ _) (run_good clock script) it Hin) as Hgood.
  split; [intros Hst; apply (Hgood Hst)|].
  intros d note db self' db' Hrun.
  pose proof (check_in_receiver clock d note it (it, db) eq_refl) as Hrec.
  rewrite Hrun in Hrec. simpl in Hrec. subst self'. simpl.
  repeat split.
  destruct d as [|d]; [discriminate Hrun|].
  simpl in Hrun. unfold bind at 1 in Hrun. simpl in Hrun.
  destruct (is_checked_out it) eqn:Hout; [|discriminate Hrun].
  apply Hgood, is_checked_out_iff, Hout.
Qed.

End Reachable.

(** ** Checking out a kit with an item that is not in stock *)

Section BlockedKit.

Variable clock : nat -> datetime.

Lemma triple_conj {St A} (P P' : St -> Prop) (m : Comp St A) Q Q' E E' :
  triple P m Q E -> triple P' m Q' E' ->
  triple (fun s => P s /\ P' s) m
         (fun a s => Q a s /\ Q' a s) (fun e s => E e s /\ E' e s).
Proof.
  intros H H' s [Hs Hs']. specialize (H s Hs). specialize (H' s Hs').
  destruct (m s) as [[a|e] s']; split; assumption.
Qed.











End BlockedKit.

(** ** Late penalties *)

Section Levy.

Variable clock : nat -> datetime.

Lemma days_overdue_now (it : Item) (db : Database) :
  (is_checked_out it = true -> due it <> None) ->
  call it (days_overdue clock None) db
  = (Ok (overdue_at (clock (clock_reads db)) it), tick db).
Proof.
  intros Hdue. unfold call, days_overdue, overdue_at, bind, on_db, now, get_self, ret.
  simpl. destruct (is_checked_out it); simpl; [|reflexivity].
  destruct (due it) as [t|]; [|now elim Hdue].
  destruct (dt_geb t (clock (clock_reads db))); reflexivity.
Qed.

Lemma advance_tick (k : nat) (db : Database) :
  advance k (tick db) = advance (S k) db.
Proof. unfold advance, tick; simpl. f_equal. lia. Qed.

Lemma advance_zero (db : Database) : advance 0 db = db.
Proof. destruct db; reflexivity. Qed.

(** The first loop of [levy]. *)
Lemma first_scan (lent : list Item) (acc : Z) (db : Database) :
  (forall it, In it lent -> is_checked_out it = true -> due it <> None) ->
  fold_each lent acc
    (fun overdue_days item =>
       d <- call item (days_overdue clock None) ;; ret (Z.max overdue_days d)) db
  = (Ok (fold_left Z.max (scan clock (clock_reads db) lent) acc),
     advance (List.length lent) db).
Proof.
  revert acc db. induction lent as [|it rest IH]; intros acc db Hok; simpl.
  - now rewrite advance_zero.
  - unfold bind at 1. unfold bind at 1.
    rewrite (days_overdue_now it db (Hok it (or_introl eq_refl))). simpl.
    rewrite IH by (intros x Hx; apply Hok; now right).
    now rewrite advance_tick.
Qed.

(** The second loop of [levy]: the join table gains the keys of the items
    on which the scan finds [m] days, for the penalty [pen]. *)
Lemma second_scan (pen : Penalty) (m : Z) (lent : list Item) (db : Database) :
  (forall it, In it lent -> is_checked_out it = true -> due it <> None) ->
  exists rows,
    for_each lent
      (fun item =>
         d <- call item (days_overdue clock None) ;;
         if d =? m then penalty_items_add pen item else ret tt) db
    = (Ok tt, advance (List.length lent) (set_penalty_items rows db))
    /\ forall row,
         In row rows <->
         In row (penalty_items db)
         \/ (fst row = pen_id pen
             /\ In (snd row) (scan_hits clock (clock_reads db) m lent)).
Proof.
  revert db. induction lent as [|it rest IH]; intros db Hok; simpl.
  - exists (penalty_items db). split; [destruct db; reflexivity|].
    intros row. tauto.
  - assert (Hrest : forall x, In x rest -> is_checked_out x = true -> due x <> None)
      by (intros x Hx; apply Hok; now right).
    unfold bind at 1. unfold bind at 1.
    rewrite (days_overdue_now it db (Hok it (or_introl eq_refl))).
    set (d := overdue_at (clock (clock_reads db)) it).
    assert (Hstep : exists rows1,
               (if d =? m then penalty_items_add pen it else ret tt) (tick db)
               = (Ok tt, set_penalty_items rows1 (tick db))
               /\ forall row, In row rows1 <->
                              In row (penalty_items db)
                              \/ (d = m /\ row = (pen_id pen, id it))).
    { destruct (Z.eqb_spec d m) as [Hd|Hd].
      - unfold penalty_items_add. simpl.
        destruct (existsb _ (penalty_items db)) eqn:Hex.
        + exists (penalty_items db). split; [destruct db; reflexivity|].
          intros row. split; [tauto|]. intros [H|[_ ->]]; [exact H|].
          apply existsb_exists in Hex. destruct Hex as ([p x] & Hin & Hpx).
          simpl in Hpx. apply andb_true_iff in Hpx. destruct Hpx as [Hp Hx].
          apply Z.eqb_eq in Hp, Hx. now subst.
        + exists (penalty_items db ++ [(pen_id pen, id it)]). split; [reflexivity|].
          intros row. rewrite in_app_iff. simpl. split.
          * intros [H|[<-|[]]]; auto.
          * intros [H|[_ ->]]; auto.
      - exists (penalty_items db). split; [destruct db; reflexivity|].
        intros row. split; [tauto|]. intros [H|[H _]]; [exact H|contradiction]. }
    destruct Hstep as (rows1 & -> & Hrows1).
    destruct (IH (set_penalty_items rows1 (tick db)) Hrest) as (rows & -> & Hrows).
    exists rows. split.
    + unfold advance, set_penalty_items, tick; simpl. do 2 f_equal. lia.
    + intros [p x]. rewrite Hrows. simpl. rewrite Hrows1. fold d.
      destruct (Z.eqb_spec d m) as [Hd|Hd]; simpl; split.
      * intros [[H|[_ H]]|[Hp Hx]]; [now left| |now right; split; [|right]].
        injection H as -> ->. right. split; [reflexivity|now left].
      * intros [H|[Hp [Hx|Hx]]]; [now left; left| |now right].
        left. right. split; [exact Hd|]. now subst.
      * intros [[H|[H _]]|H]; [now left|contradiction|now right].
      * intros [H|H]; [now left; left|now right].
Qed.

Lemma next_id_fresh (ks : list Z) (k : Z) : In k ks -> k < next_id ks.
Proof.
  unfold next_id. induction ks as [|x ks IH]; intros H; [destruct H|].
  cbn [fold_right]. destruct H as [->|H]; [lia|]. specialize (IH H). lia.
Qed.

Lemma map_replace_fresh (pen : Penalty) (rows : list Penalty) :
  (forall r, In r rows -> pen_id r <> pen_id pen) ->
  map (fun r => if pen_id r =? pen_id pen then pen else r) (rows ++ [pen])
  = rows ++ [pen].
Proof.
  intros H. rewrite map_app. simpl. rewrite Z.eqb_refl. f_equal.
  induction rows as [|r rows IH]; [reflexivity|]. simpl.
  destruct (Z.eqb_spec (pen_id r) (pen_id pen)) as [E|_].
  - elim (H r (or_introl eq_refl) E).
  - f_equal. apply IH. intros x Hx. apply H. now right.
Qed.

(** C6.  [levy] takes the maximum [m] of [days_overdue()] over the items
    whose borrower is the person.  When [m] is 0 it returns [None] and the
    tables are as they were.  Otherwise it returns one new penalty for the
    person, of amount 2500 * [m], appended to the penalty table, and the
    items attached to it are exactly those on which the second scan finds
    [m] days, all of them.  Each call of [days_overdue()] reads the clock
    once. *)
Theorem levy_spec (who : Z) (db : Database) :
  let lent := filter (fun r => opt_Z_eqb (checked_out_by r) who) (items db) in
  let k := List.length lent in
  let m := max_of (scan clock (clock_reads db) lent) in
  (forall it, In it lent -> is_checked_out it = true -> due it <> None) ->
  (forall row, In row (penalty_items db) ->
               exists p, In p (penalties db) /\ pen_id p = fst row) ->
  (forall it db0, In it lent ->
      call it (days_overdue clock None) db0
      = (Ok (overdue_at (clock (clock_reads db0)) it), tick db0))
  /\ (m = 0 -> levy clock who db = (Ok None, advance k db))
  /\ (m <> 0 ->
      exists pen db',
        levy clock who db = (Ok (Some pen), db')
        /\ student pen = who
        /\ amount pen = 2500 * m
        /\ penalties db' = penalties db ++ [pen]
        /\ items db' = items db
        /\ forall x, In x (penalty_items_of pen db') <->
                     In x (scan_hits clock (S (k + clock_reads db)) m lent)).
Proof.
  intros lent k m Hok Hfk. subst k.
  split; [intros it db0 Hit; apply days_overdue_now, Hok, Hit|].
  assert (Hlevy : levy clock who db
                  = (let penalty_amount := BASE_PENALTY_AMOUNT * m in
                     if penalty_amount =? 0
                     then ret None
                     else
                       penalty <- penalty_create clock who penalty_amount ;;
                       equipment_lent <- item_set_all who ;;
                       for_each equipment_lent (fun item =>
                         d <- call item (days_overdue clock None) ;;
                         if d =? m then penalty_items_add penalty item else ret tt) ;;
                       penalty_save penalty ;;
                       ret (Some penalty)) (advance (List.length lent) db)).
  { unfold levy. unfold bind at 1. unfold item_set_all at 1. fold lent.
    unfold bind at 1. rewrite (first_scan lent 0 db Hok). reflexivity. }
  rewrite Hlevy. clear Hlevy. cbv zeta. unfold BASE_PENALTY_AMOUNT.
  split.
  - intros ->. reflexivity.
  - intros Hm.
    destruct (Z.eqb_spec (2500 * m) 0) as [E|_]; [lia|].
    unfold bind at 1. unfold penalty_create at 1. unfold bind at 1. unfold now at 1.
    set (pen := mkPenalty (next_id (map pen_id (penalties (tick (advance (List.length lent) db)))))
                          who (clock (clock_reads (advance (List.length lent) db))) (2500 * m)).
    set (db1 := set_penalties (penalties (tick (advance (List.length lent) db)) ++ [pen])
                              (tick (advance (List.length lent) db))).
    unfold bind at 1. unfold item_set_all at 1.
    change (items db1) with (items db). fold lent.
    unfold bind at 1.
    destruct (second_scan pen m lent db1 Hok) as (rows & -> & Hrows).
    unfold bind at 1. unfold penalty_save at 1.
    assert (Hfresh : forall r, In r (penalties db) -> pen_id r <> pen_id pen).
    { intros r Hr. pose proof (next_id_fresh _ _ (in_map pen_id _ _ Hr)) as Hlt.
      simpl. simpl in Hlt. lia. }
    assert (Hex : existsb (fun r => pen_id r =? pen_id pen)
                          (penalties (advance (List.length lent) (set_penalty_items rows db1))) = true).
    { apply existsb_exists. exists pen. split; [|apply Z.eqb_refl].
      simpl. apply in_or_app. right. now left. }
    rewrite Hex.
    change (penalties (advance (List.length lent) (set_penalty_items rows db1)))
      with (penalties db ++ [pen]).
    rewrite (map_replace_fresh pen (penalties db) Hfresh).
    eexists. eexists. split; [reflexivity|].
    split; [reflexivity|]. split; [reflexivity|]. split; [reflexivity|].
    split; [reflexivity|].
    intros x. unfold penalty_items_of. simpl. rewrite in_map_iff. split.
    + intros ([p y] & Hy & Hin). simpl in Hy. subst y.
      apply filter_In in Hin. destruct Hin as [Hin Hp]. simpl in Hp.
      apply Z.eqb_eq in Hp. apply Hrows in Hin. destruct Hin as [Hin|[_ Hin]].
      * destruct (Hfk _ Hin) as (r & Hr & Hrp). simpl in Hrp.
        elim (Hfresh r Hr). simpl. congruence.
      * simpl in Hin. replace (S ((List.length lent) + clock_reads db)) with (clock_reads db1)
          by (simpl; lia). exact Hin.
    + intros Hx. exists (pen_id pen, x). split; [reflexivity|].
      apply filter_In. split; [|apply Z.eqb_refl].
      apply Hrows. right. split; [reflexivity|]. simpl.
      replace (S ((List.length lent) + clock_reads db)) with (clock_reads db1) in Hx by (simpl; lia).
      exact Hx.
Qed.

End Levy.

(** ** The properties on the sample data *)

Import Examples.

(** A checked-out camera of a reachable session. *)
Lemma checked_out_has_borrower_and_due_witness :
  In a_5d_out (session_items (run sample_clock checkout_script))
  /\ (is_checked_out a_5d_out = true <-> status a_5d_out = Some OUT)
  /\ (status a_5d_out = Some OUT ->
      checked_out_by a_5d_out <> None /\ due a_5d_out <> None).
Proof.
  assert (H : In a_5d_out (session_items (run sample_clock checkout_script)))
    by (vm_compute; auto).
  split; [exact H|].
  exact (checked_out_has_borrower_and_due sample_clock checkout_script a_5d_out H).
Defined.

(** C1 fails on the code: a camera is checked out to Bob and then added
    to stock.  Its status is [INSTOCK] and [is_checked_out] is false, yet
    it still has Bob as borrower and the due timestamp of the loan. *)
Theorem restocked_item_keeps_borrower :
  In a_5d_restocked (session_items (run sample_clock restock_script))
  /\ status a_5d_restocked = Some INSTOCK
  /\ is_checked_out a_5d_restocked = false
  /\ checked_out_by a_5d_restocked = Some bob_dobbs
  /\ due a_5d_restocked = Some thursday_evening
  /\ ~ checked_out_three_ways a_5d_restocked.
Proof.
  split; [vm_compute; auto|]. repeat split.
  intros [_ [_ H]].
  assert (Hst : status a_5d_restocked = Some OUT)
    by (apply H; split; discriminate).
  discriminate Hst.
Qed.

(** C3: a camera due on Thursday evening, asked about on Wednesday
    morning. *)
Lemma days_overdue_spec_witness :
  days_overdue sample_clock (Some wednesday_morning) (a_5d_out, empty_database)
  = (Ok 0, (a_5d_out, empty_database))
  /\ days_overdue sample_clock (Some (dt_add thursday_evening (td_days_minutes 1 1)))
                  (a_5d_out, empty_database)
     = (Ok 2, (a_5d_out, empty_database)).
Proof.
  assert (Hwf1 : dt_wf thursday_evening) by (unfold dt_wf; simpl; lia).
  assert (Hwf2 : dt_wf wednesday_morning) by (unfold dt_wf; simpl; lia).
  destruct (days_overdue_spec sample_clock a_5d_out empty_database
              thursday_evening wednesday_morning eq_refl Hwf1 Hwf2) as [H1 H2].
  split; [exact H1|]. exact (proj2 (proj2 (H2 eq_refl))).
Defined.

(** C4: the checked-out camera cannot be checked out again. *)
Lemma check_out_not_in_stock_witness :
  status a_5d_out <> Some INSTOCK
  /\ check_out sample_clock 1 bob_dobbs None None (a_5d_out, empty_database)
     = (Raise (TransactionError "Item isn't in stock -- checked out"),
        (a_5d_out, empty_database)).
Proof.
  assert (H : status a_5d_out <> Some INSTOCK) by discriminate.
  split; [exact H|].
  exact (check_out_not_in_stock sample_clock 0 bob_dobbs None None a_5d_out
           empty_database H).
Defined.

(** C5: the lookups of the docstring. *)
Lemma find_by_number_spec_witness :
  fst (find_by_number "9999" inventory)
  = Raise (ItemError "No item found with serial/HIP number 9999")
  /\ fst (find_by_number "C1" inventory) = Ok camera_C1
  /\ fst (find_by_number "4567" inventory)
     = Raise (ItemError "Multiple matches for 4567: [2, 4]").
Proof.
  assert (Hrows : items inventory = [camera_2345; camera_4567; lens_8765; camera_C1])
    by reflexivity.
  split; [|split].
  - apply (proj1 (proj2 (find_by_number_spec "9999" inventory))).
    rewrite Hrows. intros r [<-|[<-|[<-|[<-|[]]]]]; split; discriminate.
  - apply (proj1 (proj2 (proj2 (find_by_number_spec "C1" inventory)))
             [camera_2345; camera_4567; lens_8765] camera_C1 [] Hrows).
    + left. reflexivity.
    + intros r [<-|[<-|[<-|[]]]]; split; discriminate.
  - destruct (proj2 (proj2 (proj2 (find_by_number_spec "4567" inventory)))
                [camera_2345] camera_4567 [lens_8765] camera_C1 [] Hrows
                (or_intror eq_refl) (or_intror eq_refl))
      as (keys & Hres & Hkeys & _).
    rewrite Hres, Hkeys. reflexivity.
Defined.

(** C6: Bob has a camera that was due on Sunday evening; on Wednesday
    morning it is three days overdue and he is charged 7500. *)
Lemma levy_spec_witness :
  exists pen db',
    levy sample_clock bob_dobbs late_db = (Ok (Some pen), db')
    /\ student pen = bob_dobbs
    /\ amount pen = 7500
    /\ penalties db' = [pen]
    /\ penalty_items_of pen db' = [1].
Proof.
  assert (Hok : forall it,
             In it (filter (fun r => opt_Z_eqb (checked_out_by r) bob_dobbs)
                           (items late_db)) ->
             is_checked_out it = true -> due it <> None).
  { intros it [<-|[]] _. discriminate. }
  assert (Hfk : forall row, In row (penalty_items late_db) ->
                            exists p, In p (penalties late_db) /\ pen_id p = fst row).
  { intros row []. }
  destruct (levy_spec sample_clock bob_dobbs late_db Hok Hfk) as (_ & _ & H).
  assert (Hm : max_of (scan sample_clock (clock_reads late_db)
                         (filter (fun r => opt_Z_eqb (checked_out_by r) bob_dobbs)
                                 (items late_db))) <> 0)
    by (vm_compute; discriminate).
  destruct (H Hm) as (pen & db' & Hrun & Hwho & Hamt & Hpens & _ & _).
  exists pen, db'. split; [exact Hrun|]. split; [exact Hwho|].
  split; [exact Hamt|]. split; [exact Hpens|].
  vm_compute in Hrun. injection Hrun as <- <-. reflexivity.
Defined.

(** C7 fails on the code: a kit in stock, with no due timestamp, is saved.
    The kit's due timestamp stays null, and the camera and the lens in it
    get the default due timestamp of tomorrow at 17:50. *)
Theorem kit_save_null_due :
  map (fun r => (id r, due r)) (items (database (run sample_clock kit_save_script)))
  = [(1, None); (2, Some thursday_evening); (3, Some thursday_evening)].
Proof. vm_compute. reflexivity. Qed.

(** C8 fails on the code: the kit is checked out to Bob with a due
    timestamp of 2010-01-01 09:00.  The kit is due then; the camera and
    the lens in it are checked out to Bob and due tomorrow at 17:50. *)
Theorem kit_check_out_custom_due :
  map (fun r => (id r, status r, checked_out_by r, due r))
      (items (database (run sample_clock kit_custom_script)))
  = [(1, Some OUT, Some bob_dobbs, Some new_year_morning);
     (2, Some OUT, Some bob_dobbs, Some thursday_evening);
     (3, Some OUT, Some bob_dobbs, Some thursday_evening)].
Proof. vm_compute. reflexivity. Qed.



(** C10: the checked-out camera is checked in. *)
Lemma check_in_keeps_due_witness :
  In a_5d_out (session_items (run sample_clock checkout_script))
  /\ check_in sample_clock depth None (a_5d_out, empty_database)
     = (Ok tt, (a_5d_returned, snd (snd (check_in sample_clock depth None
                                           (a_5d_out, empty_database)))))
  /\ status a_5d_returned = Some INSTOCK
  /\ checked_out_by a_5d_returned = None
  /\ due a_5d_returned = due a_5d_out
  /\ due a_5d_returned <> None.
Proof.
  assert (H : In a_5d_out (session_items (run sample_clock checkout_script)))
    by (vm_compute; auto).
  assert (Hrun : check_in sample_clock depth None (a_5d_out, empty_database)
                 = (Ok tt, (a_5d_returned,
                            snd (snd (check_in sample_clock depth None
                                        (a_5d_out, empty_database))))))
    by reflexivity.
  split; [exact H|]. split; [exact Hrun|].
  exact (proj2 (check_in_keeps_due sample_clock checkout_script a_5d_out H)
           depth None empty_database a_5d_returned _ Hrun).
Defined.

(** C10 as stated fails: a camera is checked out and checked in again.
    It is in stock, and it still has the due timestamp of the loan. *)
Lemma returned_item_keeps_due :
  In a_5d_returned (session_items (run sample_clock checkin_script))
  /\ ~ due_only_when_out a_5d_returned.
Proof.
  split; [vm_compute; auto|].
  intros H. assert (Hst : status a_5d_returned = Some OUT) by (apply H; discriminate).
  discriminate Hst.
Qed.

(** * More of the module *)

Import Inventory.

(** ** Errors and edges of the single-item operations *)

Section ItemEdges.

Variable clock : nat -> datetime.

Lemma is_checked_out_false (it : Item) :
  status it <> Some OUT -> is_checked_out it = false.
Proof.
  intros H. destruct (is_checked_out it) eqn:E; [|reflexivity].
  elim H. revert E. unfold is_checked_out, status_is.
  destruct (status it) as [n|]; [|discriminate].
  intros E. apply Z.eqb_eq in E. now subst.
Qed.

Lemma is_in_stock_true (it : Item) :
  status it = Some INSTOCK -> is_in_stock it = true.
Proof. intros H. unfold is_in_stock, status_is. now rewrite H. Qed.

(** X1.  [check_in] on an item that is not checked out raises a
    [TransactionError] whose message ends with the status as a number;
    the item and every table are as they were. *)
Theorem check_in_not_checked_out (d : nat) (note : option string)
        (self : Item) (db : Database) :
  status self <> Some OUT ->
  check_in clock (S d) note (self, db) =
  (Raise (TransactionError
            ("Item isn't checked out -- " ++ str_of_status (status self))%string),
   (self, db)).
Proof.
  intros H. simpl. unfold bind, get_self; simpl.
  rewrite (is_checked_out_false self H). reflexivity.
Qed.

(** X2.  [save] on an item with neither a serial number nor a HIP number
    raises an [ItemError] before anything is written, for a kit too: its
    contents are not touched. *)
Theorem save_without_number (d : nat) (self : Item) (db : Database) :
  serialnumber self = "" -> hip_number self = "" ->
  save clock (S d) (self, db) =
  (Raise (ItemError "Each item needs either a serial number or a HIP number"),
   (self, db)).
Proof.
  intros Hs Hh. simpl. unfold bind, get_self; simpl. rewrite Hs, Hh. reflexivity.
Qed.

(** X3.  [add_to_stock] on an item that is not a kit always returns and
    leaves the item in stock.  It records one ADD transaction, with no
    person, exactly when the item was not in stock; it does not write the
    item's row; and a second call changes nothing. *)
Theorem add_to_stock_once (d d' : nat) (note note' : option string)
        (self : Item) (db : Database) :
  is_kit self = false ->
  exists db1,
    add_to_stock clock (S d) note (self, db)
    = (Ok tt, (set_status (Some INSTOCK) self, db1))
    /\ items db1 = items db
    /\ transactions db1 =
       transactions db ++
         (if is_in_stock self then []
          else [mkTransaction (id self) None (clock (clock_reads db)) (Some ADD) note])
    /\ (is_in_stock self = true -> db1 = db /\ set_status (Some INSTOCK) self = self)
    /\ add_to_stock clock (S d') note' (set_status (Some INSTOCK) self, db1)
       = (Ok tt, (set_status (Some INSTOCK) self, db1)).
Proof.
  intros Hkit.
  assert (Hagain : forall db1,
             add_to_stock clock (S d') note' (set_status (Some INSTOCK) self, db1)
             = (Ok tt, (set_status (Some INSTOCK) self, db1))).
  { intros db1. simpl. unfold bind, get_self; simpl.
    unfold is_kit in *. simpl. rewrite Hkit. reflexivity. }
  destruct (is_in_stock self) eqn:Hin.
  - assert (Hsame : set_status (Some INSTOCK) self = self).
    { unfold is_in_stock, status_is in Hin. destruct self as [k t sn hn st by_ du pk lg nt].
      simpl in *. destruct st as [n|]; [|discriminate].
      apply Z.eqb_eq in Hin. now subst. }
    exists db. rewrite Hsame. repeat split; auto.
    + simpl. unfold bind, get_self; simpl. rewrite Hin. simpl.
      rewrite Hkit. reflexivity.
    + now rewrite app_nil_r.
    + rewrite <- Hsame at 1 2. apply Hagain.
  - eexists. split; [|split; [|split; [|split]]].
    + simpl. unfold bind, get_self, on_db, update_self; simpl.
      rewrite Hin. simpl. unfold is_kit in *. simpl. rewrite Hkit. reflexivity.
    + reflexivity.
    + reflexivity.
    + discriminate.
    + apply Hagain.
Qed.

End ItemEdges.

(** ** Overdue days and the default due timestamp *)

Section Overdue.

Variable clock : nat -> datetime.

(** X4.  With a due timestamp, [days_overdue] never goes down as [as_of]
    moves on, is never negative, and is 0 exactly when the item is not
    checked out or [as_of] is not after the due timestamp. *)
Theorem days_overdue_monotone (self : Item) (db : Database) (T a1 a2 : datetime) :
  due self = Some T -> dt_wf T -> dt_wf a1 -> dt_wf a2 ->
  dt_micros a1 <= dt_micros a2 ->
  exists n1 n2,
    days_overdue clock (Some a1) (self, db) = (Ok n1, (self, db))
    /\ days_overdue clock (Some a2) (self, db) = (Ok n2, (self, db))
    /\ 0 <= n1 <= n2
    /\ (n2 = 0 <-> is_checked_out self = false \/ dt_micros a2 <= dt_micros T).
Proof.
  intros Hdue HT H1 H2 Hle.
  rewrite (days_overdue_eval clock self db T a1 Hdue HT H1).
  rewrite (days_overdue_eval clock self db T a2 Hdue HT H2).
  eexists. eexists. split; [reflexivity|]. split; [reflexivity|].
  assert (Hday : 0 < us_per_day) by (unfold us_per_day, us_per_second; lia).
  destruct (is_checked_out self); simpl.
  - destruct (Z.leb_spec (dt_micros a1) (dt_micros T)) as [L1|L1];
      destruct (Z.leb_spec (dt_micros a2) (dt_micros T)) as [L2|L2].
    + split; [lia|]. split; auto.
    + assert (0 <= (dt_micros a2 - dt_micros T) / us_per_day)
        by (apply Z.div_pos; lia).
      split; [lia|]. split; [lia|]. intros [Hc|Hc]; [discriminate|lia].
    + lia.
    + assert (0 <= (dt_micros a1 - dt_micros T) / us_per_day)
        by (apply Z.div_pos; lia).
      assert ((dt_micros a1 - dt_micros T) / us_per_day
              <= (dt_micros a2 - dt_micros T) / us_per_day)
        by (apply Z.div_le_mono; lia).
      split; [lia|]. split; [lia|]. intros [Hc|Hc]; [discriminate|lia].
  - split; [lia|]. split; auto.
Qed.

(** X5.  Without a due timestamp, [days_overdue] is 0 on an item that is
    not checked out and raises [TypeError] on one that is; with [as_of]
    given it reads no clock and changes nothing. *)
Theorem days_overdue_without_due (self : Item) (db : Database) (as_of : datetime) :
  due self = None ->
  days_overdue clock (Some as_of) (self, db)
  = (if is_checked_out self then Raise TypeError else Ok 0, (self, db)).
Proof.
  intros Hdue. unfold days_overdue, bind, ret, get_self, raise; simpl.
  destruct (is_checked_out self); simpl; [rewrite Hdue|]; reflexivity.
Qed.

Lemma set_due_datetime_default (self : Item) (db : Database) :
  set_due_datetime clock None (self, db)
  = (Ok tt, (set_due (Some (default_due (dt_date (clock (clock_reads db))))) self,
             tick db)).
Proof.
  unfold set_due_datetime, default_due, bind, on_db, today, now, bind, ret; simpl.
  destruct (isoweekday (dt_date (clock (clock_reads db))) =? 5); reflexivity.
Qed.

(** X6.  The default due timestamp is later than the clock reading it is
    computed from, one to three days ahead; when the reading is on a
    Monday to Friday, so is the due day. *)
Theorem default_due_is_ahead (self : Item) (db : Database) :
  dt_wf (clock (clock_reads db)) ->
  exists t,
    set_due_datetime clock None (self, db) = (Ok tt, (set_due (Some t) self, tick db))
    /\ dt_wf t
    /\ dt_micros (clock (clock_reads db)) < dt_micros t
    /\ 1 <= dt_date t - dt_date (clock (clock_reads db)) <= 3
    /\ (isoweekday (dt_date (clock (clock_reads db))) <= 5 ->
        isoweekday (dt_date t) <= 5).
Proof.
  intros (Hh & Hm & Hs & Hu).
  exists (default_due (dt_date (clock (clock_reads db)))).
  split; [apply set_due_datetime_default|].
  set (now := clock (clock_reads db)) in *.
  unfold default_due, isoweekday, date_add_days, combine, time_hm.
  destruct (Z.eqb_spec (dt_date now mod 7) 0) as [E0|E0].
  - (* Sunday *)
    simpl. unfold dt_wf, dt_micros, seconds_of_day, us_per_second; simpl.
    destruct (Z.eqb_spec ((dt_date now + 1) mod 7) 0) as [E1|E1];
      repeat split; try lia.
  - destruct (Z.eqb_spec (dt_date now mod 7) 5) as [E5|E5].
    + unfold dt_wf, dt_micros, seconds_of_day, us_per_second; simpl.
      assert (E3 : (dt_date now + 3) mod 7 = 1)
        by (Z.to_euclidean_division_equations; lia).
      rewrite E3. simpl. repeat split; lia.
    + unfold dt_wf, dt_micros, seconds_of_day, us_per_second; simpl.
      destruct (Z.eqb_spec ((dt_date now + 1) mod 7) 0) as [E1|E1];
        repeat split; try lia.
      * intros Hwd. exfalso. Z.to_euclidean_division_equations. lia.
      * intros Hwd. Z.to_euclidean_division_equations. lia.
Qed.

End Overdue.

(** ** Looking an item up by its own number *)

Lemma has_own_number (it : Item) : has_number (number it) it = true.
Proof.
  unfold has_number, number, str_or.
  destruct (truthy (hip_number it)).
  - now rewrite String.eqb_refl.
  - rewrite (String.eqb_refl (serialnumber it)). apply orb_true_r.
Qed.

Lemma matches_keys_unique (p : Item -> bool) (rows : list Item) :
  keys_unique rows -> keys_unique (filter p rows).
Proof.
  unfold keys_unique. induction rows as [|x rows IH]; simpl; intros H; [constructor|].
  inversion H as [|? ? Hnot Hnd]; subst.
  destruct (p x); [|now apply IH]. simpl. constructor; [|now apply IH].
  intros Hin. apply Hnot. apply in_map_iff in Hin. destruct Hin as (y & Hy & Hin).
  apply in_map_iff. exists y. split; [exact Hy|]. apply filter_In in Hin. tauto.
Qed.

Lemma same_key_at_most_one (l : list Item) (k : Z) :
  NoDup (map id l) -> (forall r, In r l -> id r = k) ->
  l = [] \/ exists r, l = [r].
Proof.
  intros Hnd Hall. destruct l as [|a [|b l]]; [now left|right; now exists a|].
  exfalso. simpl in Hnd. inversion Hnd as [|? ? Hnot _]; subst.
  apply Hnot. left. rewrite (Hall a), (Hall b); simpl; auto.
Qed.

(** X7.  Looking up a row by its own [number] never gives the not-found
    error: it returns that very row, or raises the multiple-matches error
    with the row's key in the list.  When the keys are unique and no other
    row carries the number, it returns the row. *)
Theorem find_by_own_number (it : Item) (db : Database) :
  In it (items db) ->
  (fst (find_by_number (number it) db) = Ok it
   \/ exists keys,
        fst (find_by_number (number it) db)
        = Raise (ItemError ("Multiple matches for " ++ number it ++ ": "
                              ++ str_of_list keys)%string)
        /\ In (id it) keys)
  /\ (keys_unique (items db) ->
      (forall r, In r (items db) -> id r <> id it ->
                 hip_number r <> number it /\ serialnumber r <> number it) ->
      fst (find_by_number (number it) db) = Ok it).
Proof.
  intros Hin.
  assert (Hm : In it (filter (has_number (number it)) (items db)))
    by (apply filter_In; split; [exact Hin|apply has_own_number]).
  unfold find_by_number, filter_by_number, bind, raise, ret; simpl.
  split.
  - destruct (filter (has_number (number it)) (items db)) as [|a [|b l]] eqn:E.
    + destruct Hm.
    + left. simpl. destruct Hm as [->|[]]. reflexivity.
    + right. eexists. split; [reflexivity|]. now apply in_map.
  - intros Hkeys Hothers.
    assert (Hall : forall r, In r (filter (has_number (number it)) (items db)) ->
                             id r = id it).
    { intros r Hr. apply filter_In in Hr. destruct Hr as [Hr Hn].
      destruct (Z.eq_dec (id r) (id it)) as [E|E]; [exact E|].
      apply has_number_true in Hn. destruct (Hothers r Hr E). tauto. }
    destruct (same_key_at_most_one _ (id it)
                (matches_keys_unique _ _ Hkeys) Hall) as [E|[r E]];
      rewrite E in *.
    + destruct Hm.
    + destruct Hm as [->|[]]. reflexivity.
Qed.

(** ** Properties of the database that every operation keeps *)

Section DbRules.

Variable clock : nat -> datetime.
Variable P : Database -> Prop.

Hypothesis P_tick : forall db, P db -> P (tick db).

Lemma on_db_db {A} (m : Comp Database A) :
  keeps P m -> keeps (fun s => P (snd s)) (on_db m).
Proof.
  intros Hm [self db] Hs. unfold on_db. simpl in *. specialize (Hm db Hs).
  destruct (m db) as [[a|e] db']; exact Hm.
Qed.

Lemma call_db {A} (obj : Item) (m : Method A) :
  keeps (fun s => P (snd s)) m -> keeps P (call obj m).
Proof.
  intros Hm db Hdb. unfold call. specialize (Hm (obj, db) Hdb).
  destruct (m (obj, db)) as [[a|e] s']; exact Hm.
Qed.

Lemma update_self_db (f : Item -> Item) :
  keeps (fun s => P (snd s)) (update_self f).
Proof. intros s Hs. exact Hs. Qed.

Lemma get_self_db : keeps (fun s => P (snd s)) get_self.
Proof. intros s Hs. exact Hs. Qed.

Lemma kit_loop_db (self : Item) (m : Method unit) :
  keeps (fun s => P (snd s)) m ->
  keeps (fun s => P (snd s))
    (contents <- on_db (contents_all self) ;;
     for_each contents (fun item => on_db (call item m))).
Proof.
  intros Hm. apply keeps_bind.
  - apply on_db_db. intros db Hdb. exact Hdb.
  - intros rows. apply keeps_for_each. intros item _.
    apply on_db_db, call_db, Hm.
Qed.

Lemma set_due_datetime_db (c : option datetime) :
  keeps (fun s => P (snd s)) (set_due_datetime clock c).
Proof.
  intros [self db] Hs. destruct c as [t|]; [exact Hs|].
  rewrite set_due_datetime_default. simpl. now apply P_tick.
Qed.

Section Beyond.

(** Properties that do not depend on the item table. *)
Hypothesis P_items : forall db rows, P db -> P (set_items rows db).

Lemma model_save_beyond : keeps (fun s => P (snd s)) model_save.
Proof.
  intros [self db] Hs. unfold model_save.
  destruct (breaks_unique_together self (items db)); simpl; [exact Hs|].
  now apply P_items.
Qed.

Lemma save_beyond (d : nat) : keeps (fun s => P (snd s)) (save clock d).
Proof.
  induction d as [|d IH]; simpl; [apply keeps_raise|].
  apply keeps_bind; [apply get_self_db|]. intros self.
  destruct (negb (truthy (str_or (serialnumber self) (hip_number self))));
    [apply keeps_raise|].
  apply keeps_bind; [|intros; apply model_save_beyond].
  destruct (is_kit self); [|apply keeps_ret].
  apply kit_loop_db.
  apply keeps_bind; [apply set_due_datetime_db|intros; apply IH].
Qed.

End Beyond.

Section Through.

(** Properties that [save] keeps and that a new ledger row keeps. *)
Hypothesis P_append :
  forall db t, P db -> P (set_transactions (transactions db ++ [t]) db).
Hypothesis P_save : forall d, keeps (fun s => P (snd s)) (save clock d).

Lemma transaction_create_db (item : Item) (person : option Z) (kind : Z)
      (note : option string) :
  keeps (fun s => P (snd s)) (on_db (transaction_create clock item person kind note)).
Proof.
  intros [self db] Hs. simpl in *.
  change (P (set_transactions
               (transactions (tick db)
                  ++ [mkTransaction (id item) person (clock (clock_reads db))
                                    (Some kind) note]) (tick db))).
  apply P_append, P_tick, Hs.
Qed.

Lemma add_to_stock_db (d : nat) (note : option string) :
  keeps (fun s => P (snd s)) (add_to_stock clock d note).
Proof.
  revert note. induction d as [|d IH]; intros note; simpl; [apply keeps_raise|].
  apply keeps_bind; [apply get_self_db|]. intros self.
  apply keeps_bind.
  - destruct (negb (is_in_stock self)); [|apply keeps_ret].
    apply keeps_bind; [apply transaction_create_db|intros; apply update_self_db].
  - intros _. apply keeps_bind; [apply get_self_db|]. intros self'.
    destruct (is_kit self'); [|apply keeps_ret].
    apply kit_loop_db. apply keeps_bind; [apply IH|intros; apply P_save].
Qed.

Lemma check_out_db (d : nat) (person : Z) (custom : option datetime)
      (note : option string) :
  keeps (fun s => P (snd s)) (check_out clock d person custom note).
Proof.
  revert custom note. induction d as [|d IH]; intros custom note; simpl;
    [apply keeps_raise|].
  apply keeps_bind; [apply get_self_db|]. intros self.
  destruct (negb (is_in_stock self)); [apply keeps_raise|].
  apply keeps_bind; [apply transaction_create_db|]. intros _.
  apply keeps_bind; [apply update_self_db|]. intros _.
  apply keeps_bind; [apply update_self_db|]. intros _.
  apply keeps_bind; [apply set_due_datetime_db|]. intros _.
  apply keeps_bind; [apply P_save|]. intros _.
  apply keeps_bind; [apply get_self_db|]. intros self'.
  destruct (is_kit self'); [|apply keeps_ret].
  apply kit_loop_db, IH.
Qed.

Lemma check_in_db (d : nat) (note : option string) :
  keeps (fun s => P (snd s)) (check_in clock d note).
Proof.
  revert note. induction d as [|d IH]; intros note; simpl; [apply keeps_raise|].
  apply keeps_bind; [apply get_self_db|]. intros self.
  destruct (negb (is_checked_out self)); [apply keeps_raise|].
  apply keeps_bind; [apply transaction_create_db|]. intros _.
  apply keeps_bind; [apply update_self_db|]. intros _.
  apply keeps_bind; [apply update_self_db|]. intros _.
  apply keeps_bind; [apply P_save|]. intros _.
  apply keeps_bind; [apply get_self_db|]. intros self'.
  destruct (is_kit self'); [|apply keeps_ret].
  apply kit_loop_db, IH.
Qed.

Lemma invoke_db (i : nat) (m : Method unit) (s : Session) :
  keeps (fun st => P (snd st)) m -> P (database s) -> P (database (invoke i m s)).
Proof.
  intros Hm Hs. unfold invoke.
  destruct (nth_error (objects s) i) as [self|]; [|exact Hs].
  specialize (Hm (self, database s) Hs).
  destruct (m (self, database s)) as [[a|e] [self' db']]; exact Hm.
Qed.

Lemma perform_db (depth : nat) (a : Action) (s : Session) :
  P (database s) -> P (database (perform clock depth a s)).
Proof.
  intros Hs. destruct a as [t serial hip parent|key|i note|i p c note|i note|i]; simpl.
  - match goal with
    | |- context [save clock depth (?obj, _)] =>
        pose proof (P_save depth (obj, database s) Hs) as H;
        destruct (save clock depth (obj, database s)) as [[u|e] [obj' db']]
    end; exact H.
  - destruct (find _ _); exact Hs.
  - apply invoke_db; [apply add_to_stock_db|exact Hs].
  - apply invoke_db; [apply check_out_db|exact Hs].
  - apply invoke_db; [apply check_in_db|exact Hs].
  - apply invoke_db; [apply P_save|exact Hs].
Qed.

Lemma run_from_db (script : list (nat * Action)) (s : Session) :
  P (database s) -> P (database (run_from clock s script)).
Proof.
  revert s. induction script as [|[depth a] rest IH]; intros s Hs; simpl.
  - exact Hs.
  - apply IH, perform_db, Hs.
Qed.

End Through.

End DbRules.

(** ** What the item operations leave alone *)

Section Ledger.

Variable clock : nat -> datetime.

Lemma beyond_items_refl (db : Database) : beyond_items db db.
Proof.
  repeat split; auto. exists []. now rewrite app_nil_r.
Qed.

Lemma beyond_items_tick (db0 db : Database) :
  beyond_items db0 db -> beyond_items db0 (tick db).
Proof.
  intros (Hl & Hp & Hj & Hc). repeat split; auto. simpl. lia.
Qed.

Lemma beyond_items_append (db0 db : Database) (t : Transaction) :
  beyond_items db0 db ->
  beyond_items db0 (set_transactions (transactions db ++ [t]) db).
Proof.
  intros ([more Hl] & Hp & Hj & Hc). repeat split; auto.
  exists (more ++ [t]). simpl. rewrite Hl. now rewrite app_assoc.
Qed.

Lemma beyond_items_set_items (db0 db : Database) (rows : list Item) :
  beyond_items db0 db -> beyond_items db0 (set_items rows db).
Proof. intros H. exact H. Qed.

(** X8.  Whatever a session does with items ([create], [save],
    [add_to_stock], [check_out], [check_in], at any depth, returning or
    raising): the ledger only gains rows at its end, no earlier row is
    changed or removed; the penalty tables are untouched; the clock only
    moves forward. *)
Theorem item_operations_append_only (s : Session) (script : list (nat * Action)) :
  beyond_items (database s) (database (run_from clock s script)).
Proof.
  apply (run_from_db clock (beyond_items (database s))).
  - apply beyond_items_tick.
  - apply beyond_items_append.
  - intros d. apply save_beyond.
    + apply beyond_items_tick.
    + apply beyond_items_set_items.
  - apply beyond_items_refl.
Qed.

End Ledger.

(** ** The item table stays sound *)

Section SoundTable.

Variable clock : nat -> datetime.

Lemma same_pk_eq (a b : Item) : same_pk a b = true <-> id a = id b.
Proof. unfold same_pk. apply Z.eqb_eq. Qed.

Lemma upsert_replace (it : Item) (rows : list Item) :
  existsb (same_pk it) rows = true ->
  upsert it rows = map (fun r => if same_pk it r then it else r) rows.
Proof. intros H. unfold upsert. now rewrite H. Qed.

Lemma upsert_append (it : Item) (rows : list Item) :
  existsb (same_pk it) rows = false -> upsert it rows = rows ++ [it].
Proof. intros H. unfold upsert. now rewrite H. Qed.

Lemma In_upsert (it r : Item) (rows : list Item) :
  In r (upsert it rows) -> r = it \/ (In r rows /\ id r <> id it).
Proof.
  unfold upsert. destruct (existsb (same_pk it) rows) eqn:E.
  - intros H. apply in_map_iff in H. destruct H as (x & Hx & Hin).
    destruct (same_pk it x) eqn:Hpk; [left; now symmetry|].
    right. subst x. split; [exact Hin|]. intros Heq.
    assert (same_pk it r = true) by (apply same_pk_eq; now symmetry). congruence.
  - intros H. apply in_app_iff in H. destruct H as [H|[<-|[]]]; [|now left].
    right. split; [exact H|]. intros Heq.
    assert (Hex : existsb (same_pk it) rows = true).
    { apply existsb_exists. exists r. split; [exact H|]. apply same_pk_eq.
      now symmetry. }
    congruence.
Qed.

Lemma NoDup_snoc {A} (l : list A) (a : A) :
  NoDup l -> ~ In a l -> NoDup (l ++ [a]).
Proof.
  induction l as [|x l IH]; simpl; intros Hnd Hnot.
  - constructor; [intros []|constructor].
  - inversion Hnd as [|? ? Hx Hl]; subst. constructor.
    + intros Hin. apply in_app_iff in Hin. destruct Hin as [Hin|[<-|[]]].
      * now apply Hx.
      * apply Hnot. now left.
    + apply IH; [exact Hl|]. intros Hin. apply Hnot. now right.
Qed.

Lemma upsert_keys (it : Item) (rows : list Item) :
  keys_unique rows -> keys_unique (upsert it rows).
Proof.
  unfold keys_unique, upsert. intros Hnd.
  destruct (existsb (same_pk it) rows) eqn:E.
  - replace (map id (map (fun r => if same_pk it r then it else r) rows))
      with (map id rows); [exact Hnd|].
    rewrite map_map. apply map_ext. intros r.
    destruct (same_pk it r) eqn:Hpk; [|reflexivity].
    apply same_pk_eq in Hpk. now symmetry.
  - rewrite map_app. simpl. apply NoDup_snoc; [exact Hnd|].
    intros Hin. apply in_map_iff in Hin. destruct Hin as (r & Hr & Hin).
    assert (Hex : existsb (same_pk it) rows = true).
    { apply existsb_exists. exists r. split; [exact Hin|]. apply same_pk_eq.
      now symmetry. }
    congruence.
Qed.

Lemma not_breaks (it : Item) (rows : list Item) :
  breaks_unique_together it rows = false <->
  (forall r, In r rows -> serialnumber r = serialnumber it ->
             hip_number r = hip_number it -> id r = id it).
Proof.
  unfold breaks_unique_together. split.
  - intros H r Hr Hs Hh.
    destruct (Z.eq_dec (id r) (id it)) as [E|E]; [exact E|].
    assert (Hex : existsb (fun r0 => negb (same_pk it r0)
                             && (serialnumber r0 =? serialnumber it)%string
                             && (hip_number r0 =? hip_number it)%string) rows = true).
    { apply existsb_exists. exists r. split; [exact Hr|].
      rewrite Hs, Hh, !String.eqb_refl, !andb_true_r.
      apply negb_true_iff. destruct (same_pk it r) eqn:Hpk; [|reflexivity].
      apply same_pk_eq in Hpk. elim E. now symmetry. }
    congruence.
  - intros H. destruct (existsb _ rows) eqn:Hex; [|reflexivity].
    apply existsb_exists in Hex. destruct Hex as (r & Hr & Hp).
    apply andb_true_iff in Hp. destruct Hp as [Hp Hh].
    apply andb_true_iff in Hp. destruct Hp as [Hpk Hs].
    apply String.eqb_eq in Hs, Hh. apply negb_true_iff in Hpk.
    specialize (H r Hr Hs Hh).
    assert (same_pk it r = true) by (apply same_pk_eq; now symmetry). congruence.
Qed.

Lemma upsert_pairs (it : Item) (rows : list Item) :
  breaks_unique_together it rows = false ->
  pairs_unique rows -> pairs_unique (upsert it rows).
Proof.
  intros Hb Hp r1 r2 H1 H2 Hs Hh.
  pose proof (proj1 (not_breaks it rows) Hb) as Hnb.
  apply In_upsert in H1. apply In_upsert in H2.
  destruct H1 as [->|[H1 N1]], H2 as [->|[H2 N2]].
  - reflexivity.
  - symmetry. apply Hnb; auto.
  - apply Hnb; auto.
  - apply Hp; auto.
Qed.

Lemma model_save_sound :
  triple (fun s => sound_table (items (snd s)) /\ has_a_number (fst s))
         model_save
         (fun _ s => sound_table (items (snd s)))
         (fun _ s => sound_table (items (snd s))).
Proof.
  intros [self db] [(Hk & Hn & Hp) Hself]. unfold model_save. simpl in *.
  destruct (breaks_unique_together self (items db)) eqn:Hb; simpl.
  - repeat split; assumption.
  - split; [now apply upsert_keys|]. split; [now apply upsert_Forall|].
    now apply upsert_pairs.
Qed.

Lemma save_sound (d : nat) :
  keeps (fun s => sound_table (items (snd s))) (save clock d).
Proof.
  induction d as [|d IH]; simpl; [apply keeps_raise|].
  apply triple_bind with
    (R := fun a s => sound_table (items (snd s)) /\ fst s = a).
  { apply triple_get_self. auto. }
  intros self.
  destruct (truthy (str_or (serialnumber self) (hip_number self))) eqn:Hnum; simpl.
  - apply triple_bind with
      (R := fun _ s => sound_table (items (snd s)) /\ fst s = self).
    + destruct (is_kit self).
      * eapply triple_weaken;
          [apply (triple_conj (fun s => sound_table (items (snd s)))
                              (fun s => fst s = self) _
                              (fun _ s => sound_table (items (snd s)))
                              (fun _ s => fst s = self)
                              (fun _ s => sound_table (items (snd s)))
                              (fun _ s => fst s = self))
          |auto|auto|intros e s H; apply H].
        -- apply (kit_loop_db (fun db => sound_table (items db)) self
                    (set_due_datetime clock (due self) ;; save clock d)).
           apply keeps_bind; [|intros; apply IH].
           apply (set_due_datetime_db clock (fun db => sound_table (items db))).
           intros db H. exact H.
        -- apply kit_loop_self.
      * apply triple_ret. auto.
    + intros _.
      eapply triple_weaken; [apply model_save_sound| |auto|auto].
      intros s [Hs Hf]. split; [exact Hs|]. rewrite Hf. exact Hnum.
  - apply triple_raise. intros s [Hs _]. exact Hs.
Qed.

(** X9.  In every session reached from the empty database the item table
    is sound: primary keys are unique, every row has a serial number or a
    HIP number, and no two rows share both; [save] refuses what would
    break this. *)
Theorem session_table_sound (script : list (nat * Action)) :
  sound_table (items (database (run clock script))).
Proof.
  apply (run_from_db clock (fun db => sound_table (items db))).
  - intros db H. exact H.
  - intros db t H. exact H.
  - apply save_sound.
  - repeat split; [constructor|constructor|intros r1 r2 []].
Qed.

End SoundTable.

(** ** Check-out and check-in of an item that is not a kit *)

Section Leaf.

Variable clock : nat -> datetime.

Lemma leaf_save (d : nat) (it : Item) (db : Database) :
  is_kit it = false -> has_a_number it ->
  save clock (S d) (it, db) = model_save (it, db).
Proof.
  intros Hkit Hnum. simpl. unfold bind at 1. unfold get_self at 1. simpl.
  unfold has_a_number in Hnum. rewrite Hnum, Hkit. simpl.
  unfold bind, ret. reflexivity.
Qed.

Lemma model_save_ok (it : Item) (db : Database) :
  breaks_unique_together it (items db) = false ->
  model_save (it, db) = (Ok tt, (it, set_items (upsert it (items db)) db)).
Proof. intros H. unfold model_save. now rewrite H. Qed.

Lemma breaks_same (it it' : Item) (rows : list Item) :
  id it' = id it -> serialnumber it' = serialnumber it ->
  hip_number it' = hip_number it ->
  breaks_unique_together it' rows = breaks_unique_together it rows.
Proof.
  intros Hi Hs Hh. unfold breaks_unique_together, same_pk. now rewrite Hi, Hs, Hh.
Qed.



(** The state that [check_out] has reached when it calls [self.save()]. *)
Lemma check_out_prefix (d : nat) (person : Z) (custom : option datetime)
      (note : option string) (self : Item) (db : Database) :
  is_in_stock self = true ->
  check_out clock (S d) person custom note (self, db)
  = (save clock d ;;
     self <- get_self ;;
     if is_kit self
     then
       contents <- on_db (contents_all self) ;;
       for_each contents (fun item =>
         on_db (call item
           (check_out clock d person None
              (Some ("Checked out as part of kit " ++ item_unicode self)%string))))
     else ret tt)
    (set_due (Some (match custom with
                    | Some t => t
                    | None => default_due (dt_date (clock (S (clock_reads db))))
                    end))
             (set_checked_out_by (Some person) (set_status (Some OUT) self)),
     set_transactions
       (transactions db ++
          [mkTransaction (id self) (Some person) (clock (clock_reads db))
                         (Some CHECKOUT) note])
       (match custom with
        | Some _ => tick db
        | None => tick (tick db)
        end)).
Proof.
  intros Hin. simpl. unfold bind at 1. unfold get_self at 1. simpl. rewrite Hin. simpl.
  unfold bind at 1. unfold on_db at 1. simpl.
  unfold bind at 1. unfold update_self at 1. simpl.
  unfold bind at 1. unfold update_self at 1. simpl.
  unfold bind at 1.
  destruct custom as [t|].
  - reflexivity.
  - rewrite set_due_datetime_default. reflexivity.
Qed.

(** X10.  [check_out] of an in-stock item that is not a kit records the
    CHECKOUT transaction and sets the receiver before it saves.  It
    returns, with the row written, exactly when the item has a number and
    breaks no [unique_together]; otherwise it raises the [ItemError] or
    the [IntegrityError] of [save], and the transaction stays in the
    ledger although the row is as it was. *)
Theorem check_out_leaf (d : nat) (person : Z) (custom : option datetime)
        (note : option string) (self : Item) (db : Database) :
  status self = Some INSTOCK -> is_kit self = false ->
  exists self' db1,
    self' = set_due (Some (match custom with
                           | Some t => t
                           | None => default_due (dt_date (clock (S (clock_reads db))))
                           end))
                    (set_checked_out_by (Some person) (set_status (Some OUT) self))
    /\ items db1 = items db
    /\ transactions db1 =
       transactions db ++
         [mkTransaction (id self) (Some person) (clock (clock_reads db))
                        (Some CHECKOUT) note]
    /\ check_out clock (S (S d)) person custom note (self, db)
       = if negb (truthy (str_or (serialnumber self) (hip_number self)))
         then (Raise (ItemError
                        "Each item needs either a serial number or a HIP number"),
               (self', db1))
         else if breaks_unique_together self (items db)
              then (Raise IntegrityError, (self', db1))
              else (Ok tt, (self', set_items (upsert self' (items db)) db1)).
Proof.
  intros Hst Hkit.
  rewrite (check_out_prefix (S d) person custom note self db
             (is_in_stock_true self Hst)).
  exists (set_due (Some (match custom with
                         | Some t => t
                         | None => default_due (dt_date (clock (S (clock_reads db))))
                         end))
                  (set_checked_out_by (Some person) (set_status (Some OUT) self))),
         (set_transactions
            (transactions db ++
               [mkTransaction (id self) (Some person) (clock (clock_reads db))
                              (Some CHECKOUT) note])
            (match custom with
             | Some _ => tick db
             | None => tick (tick db)
             end)).
  split; [reflexivity|].
  split; [|split]; [destruct custom; reflexivity|destruct custom; reflexivity|].
  match goal with
  | |- _ (?x, ?y) = _ => set (self' := x); set (db1 := y)
  end.
  assert (Hkit' : is_kit self' = false) by exact Hkit.
  unfold bind at 1.
  destruct (truthy (str_or (serialnumber self) (hip_number self))) eqn:Hnum;
    cbn [negb].
  - rewrite (leaf_save d self' db1 Hkit' Hnum). unfold model_save.
    assert (Hitems : items db1 = items db) by (destruct custom; reflexivity).
    rewrite Hitems.
    rewrite (breaks_same self self' (items db) eq_refl eq_refl eq_refl).
    destruct (breaks_unique_together self (items db)); [reflexivity|].
    unfold bind, get_self. cbn [fst snd]. rewrite Hkit'. reflexivity.
  - simpl save. unfold bind at 1. unfold get_self at 1. cbn [fst snd].
    change (serialnumber self') with (serialnumber self).
    change (hip_number self') with (hip_number self).
    rewrite Hnum. reflexivity.
Qed.




End Leaf.

(** ** Stock counts of an item type *)

Section Counts.

Variable clock : nat -> datetime.

Lemma same_key_same_row (rows : list Item) (a b : Item) :
  keys_unique rows -> In a rows -> In b rows -> id a = id b -> a = b.
Proof.
  unfold keys_unique. induction rows as [|r rows IH]; intros Hnd Ha Hb E;
    [destruct Ha|].
  simpl in Hnd. inversion Hnd as [|? ? Hnot Hnd']; subst.
  destruct Ha as [->|Ha], Hb as [->|Hb]; auto.
  - elim Hnot. rewrite E. now apply in_map.
  - elim Hnot. rewrite <- E. now apply in_map.
Qed.



Lemma itemtype_eqb_refl (t : ItemType) : itemtype_eqb t t = true.
Proof.
  unfold itemtype_eqb. rewrite !String.eqb_refl. simpl. now destruct (kit t).
Qed.


End Counts.

(** ** Tables whose rows are changed in place *)

Section InPlace.

Variable g : Item -> Item.

Hypothesis g_id : forall r, id (g r) = id r.
Hypothesis g_serial : forall r, serialnumber (g r) = serialnumber r.
Hypothesis g_hip : forall r, hip_number (g r) = hip_number r.

Lemma update_kit_in (k : Z) (r' : Item) (rows : list Item) :
  In r' (update_kit k g rows) ->
  exists r, In r rows /\ r' = (if in_kit k r then g r else r).
Proof.
  unfold update_kit. intros H. apply in_map_iff in H.
  destruct H as (r & Hr & Hin). exists r. split; [exact Hin|now symmetry].
Qed.






End InPlace.

Lemma row_not_breaks (c : Item) (rows : list Item) :
  pairs_unique rows -> In c rows -> breaks_unique_together c rows = false.
Proof.
  intros Hp Hc. apply not_breaks. intros r Hr Hs Hh. now apply Hp.
Qed.



(** ** The loop over the contents of a kit *)

Section KitLoop.

Variable m : Method unit.
Variable f : Item -> Item.
Variable ok : Item -> Prop.

Hypothesis f_id : forall r, id (f r) = id r.
Hypothesis f_serial : forall r, serialnumber (f r) = serialnumber r.
Hypothesis f_hip : forall r, hip_number (f r) = hip_number r.

(** On an item in [ok] the method returns and writes the item changed by
    [f]. *)
Hypothesis m_run :
  forall c db, ok c -> has_a_number c ->
    breaks_unique_together c (items db) = false ->
    exists db', call c m db = (Ok tt, db')
                /\ items db' = upsert (f c) (items db).

Lemma kit_loop_run (cs : list Item) (self : Item) (db : Database) :
  keys_unique (items db) -> pairs_unique (items db) ->
  NoDup (map id cs) ->
  (forall c, In c cs -> In c (items db) /\ ok c /\ has_a_number c) ->
  exists db',
    for_each cs (fun item => on_db (call item m)) (self, db) = (Ok tt, (self, db'))
    /\ items db' =
       map (fun r => if existsb (fun c => id c =? id r) cs then f r else r) (items db).
Proof.
  revert db. induction cs as [|c cs IH]; intros db Hkeys Hpairs Hnd Hcs.
  - exists db. split; [reflexivity|]. simpl. now rewrite map_id.
  - destruct (Hcs c (or_introl eq_refl)) as (Hc & Hok & Hnum).
    inversion Hnd as [|? ? Hnot Hnd']; subst.
    pose proof (row_not_breaks c (items db) Hpairs Hc) as Hb.
    destruct (m_run c db Hok Hnum Hb) as (db1 & Hrun & Hitems).
    assert (Hex : existsb (same_pk (f c)) (items db) = true).
    { apply existsb_exists. exists c. split; [exact Hc|].
      apply same_pk_eq, f_id. }
    assert (Hb' : breaks_unique_together (f c) (items db) = false)
      by (rewrite (breaks_same c (f c) (items db) (f_id c) (f_serial c) (f_hip c));
          exact Hb).
    destruct (IH db1) as (db' & Hloop & Hitems').
    + rewrite Hitems. now apply upsert_keys.
    + rewrite Hitems. now apply upsert_pairs.
    + exact Hnd'.
    + intros c2 Hc2. destruct (Hcs c2 (or_intror Hc2)) as (Hin2 & Hok2 & Hnum2).
      split; [|now split]. rewrite Hitems, (upsert_replace _ _ Hex).
      apply in_map_iff. exists c2. split; [|exact Hin2].
      destruct (same_pk (f c) c2) eqn:Hpk; [|reflexivity].
      apply same_pk_eq in Hpk. rewrite f_id in Hpk.
      elim Hnot. rewrite Hpk. now apply in_map.
    + exists db'. split.
      * simpl. unfold bind at 1. unfold on_db at 1. simpl. rewrite Hrun. exact Hloop.
      * rewrite Hitems', Hitems, (upsert_replace _ _ Hex), map_map.
        apply map_ext_in. intros r Hr. simpl.
        destruct (same_pk (f c) r) eqn:Hpk.
        -- apply same_pk_eq in Hpk. rewrite f_id in Hpk.
           assert (r = c) as -> by (apply (same_key_same_row (items db)); auto).
           rewrite Z.eqb_refl. simpl.
           assert (Hno : existsb (fun c0 => id c0 =? id (f c)) cs = false).
           { destruct (existsb _ cs) eqn:E; [|reflexivity].
             apply existsb_exists in E. destruct E as (c0 & Hc0 & E).
             apply Z.eqb_eq in E. rewrite f_id in E.
             elim Hnot. rewrite <- E. now apply in_map. }
           now rewrite Hno.
        -- assert (Hne : (id c =? id r) = false).
           { destruct (Z.eqb_spec (id c) (id r)) as [E|E]; [|reflexivity].
             assert (same_pk (f c) r = true)
               by (apply same_pk_eq; now rewrite f_id).
             congruence. }
           now rewrite Hne.
Qed.

(** The whole loop of a method of the kit [kit]: every row of the kit is
    changed by [f], the other rows stay. *)
Lemma kit_contents_run (kit self : Item) (db : Database) :
  sound_table (items db) ->
  (forall r, In r (items db) -> in_kit (id kit) r = true -> ok r) ->
  exists db',
    (contents <- on_db (contents_all kit) ;;
     for_each contents (fun item => on_db (call item m))) (self, db)
    = (Ok tt, (self, db'))
    /\ items db' = update_kit (id kit) f (items db).
Proof.
  intros (Hkeys & Hnums & Hpairs) Hok.
  unfold bind at 1. unfold on_db at 1, contents_all at 1. cbn [fst snd].
  fold (in_kit (id kit)).
  destruct (kit_loop_run (filter (in_kit (id kit)) (items db)) self db Hkeys Hpairs)
    as (db' & Hrun & Hitems).
  - now apply matches_keys_unique.
  - intros c Hc. apply filter_In in Hc. destruct Hc as [Hc Hk].
    split; [exact Hc|]. split; [now apply Hok|].
    apply (proj1 (Forall_forall _ _) Hnums c Hc).
  - exists db'. split; [exact Hrun|]. rewrite Hitems. unfold update_kit.
    apply map_ext_in. intros r Hr.
    destruct (in_kit (id kit) r) eqn:Hk.
    + assert (E : existsb (fun c => id c =? id r)
                          (filter (in_kit (id kit)) (items db)) = true).
      { apply existsb_exists. exists r. split; [|apply Z.eqb_refl].
        apply filter_In. now split. }
      now rewrite E.
    + destruct (existsb _ _) eqn:E; [|reflexivity].
      apply existsb_exists in E. destruct E as (c & Hc & E).
      apply Z.eqb_eq in E. apply filter_In in Hc. destruct Hc as [Hc Hkc].
      assert (c = r) by (apply (same_key_same_row (items db)); auto).
      subst c. congruence.
Qed.

End KitLoop.

(** ** Kits whose contents are plain items *)

Section Kits.

Variable clock : nat -> datetime.




Lemma in_kit_update (k : Z) (g : Item -> Item) (rows : list Item) (r' : Item) :
  (forall r, part_of_kit (g r) = part_of_kit r) ->
  In r' (update_kit k g rows) -> in_kit k r' = true ->
  exists r, In r rows /\ in_kit k r = true /\ r' = g r.
Proof.
  intros Hg Hin Hk. apply in_map_iff in Hin. destruct Hin as (r & Hr & Hin).
  exists r. split; [exact Hin|].
  destruct (in_kit k r) eqn:E.
  - split; [reflexivity|now symmetry].
  - subst r'. congruence.
Qed.











Lemma add_to_stock_leaf (d : nat) (note : option string) (c : Item) (db : Database) :
  is_kit c = false ->
  exists db1,
    add_to_stock clock (S d) note (c, db) = (Ok tt, (set_status (Some INSTOCK) c, db1))
    /\ items db1 = items db.
Proof.
  intros Hkit. destruct (is_in_stock c) eqn:Hin.
  - assert (Hsame : set_status (Some INSTOCK) c = c).
    { unfold is_in_stock, status_is in Hin.
      destruct c as [k t sn hn st by_ du pk lg nt].
      simpl in *. destruct st as [n|]; [|discriminate].
      apply Z.eqb_eq in Hin. now subst. }
    exists db. rewrite Hsame. split; [|reflexivity].
    simpl. unfold bind, get_self; simpl. rewrite Hin. simpl. rewrite Hkit. reflexivity.
  - eexists. split.
    + simpl. unfold bind, get_self, on_db, update_self; simpl.
      rewrite Hin. simpl. unfold is_kit in *. simpl. rewrite Hkit. reflexivity.
    + reflexivity.
Qed.

Lemma add_to_stock_child (d : nat) (note : option string) (c : Item) (db : Database) :
  is_kit c = false -> has_a_number c ->
  breaks_unique_together c (items db) = false ->
  exists db',
    call c (add_to_stock clock (S d) note ;; save clock (S d)) db = (Ok tt, db')
    /\ items db' = upsert (set_status (Some INSTOCK) c) (items db).
Proof.
  intros Hkit Hnum Hb.
  destruct (add_to_stock_leaf d note c db Hkit) as (db1 & Hrun & Hitems).
  exists (set_items (upsert (set_status (Some INSTOCK) c) (items db1)) db1).
  split; [|simpl; now rewrite Hitems].
  unfold call, bind. rewrite Hrun.
  rewrite (leaf_save clock d (set_status (Some INSTOCK) c) db1 Hkit Hnum).
  rewrite model_save_ok; [reflexivity|].
  rewrite Hitems, (breaks_same c (set_status (Some INSTOCK) c) _ eq_refl eq_refl eq_refl).
  exact Hb.
Qed.

Lemma add_to_stock_unfold (d : nat) (note : option string) :
  add_to_stock clock (S d) note =
  (self <- get_self ;;
   (if negb (is_in_stock self)
    then
      on_db (transaction_create clock self None ADD note) ;;
      update_self (set_status (Some INSTOCK))
    else ret tt) ;;
   self <- get_self ;;
   if is_kit self
   then
     contents <- on_db (contents_all self) ;;
     for_each contents (fun item =>
       on_db (call item
         (add_to_stock clock d
            (Some ("Added as part of kit " ++ item_unicode self)%string) ;;
          save clock d)))
   else ret tt).
Proof. reflexivity. Qed.

(** X16.  [add_to_stock] on a kit whose contents are plain items returns;
    every row of the kit is then in stock, written to the table, while the
    rows outside the kit, the kit's own row among them, are not written:
    the kit itself is set in stock only in the caller's hands. *)
Theorem kit_add_to_stock_all (d : nat) (note : option string)
        (self : Item) (db : Database) :
  sound_table (items db) ->
  is_kit self = true ->
  (forall r, In r (items db) -> in_kit (id self) r = true -> is_kit r = false) ->
  exists db',
    add_to_stock clock (S (S d)) note (self, db)
    = (Ok tt, (set_status (Some INSTOCK) self, db'))
    /\ items db' = update_kit (id self) (set_status (Some INSTOCK)) (items db)
    /\ (forall r, In r (items db') -> in_kit (id self) r = true ->
                  status r = Some INSTOCK)
    /\ (forall r, In r (items db') -> in_kit (id self) r = false -> In r (items db)).
Proof.
  intros Hsound Hkit Hkids.
  set (self1 := set_status (Some INSTOCK) self).
  assert (Hpre : exists db1,
             items db1 = items db
             /\ add_to_stock clock (S (S d)) note (self, db)
                = (contents <- on_db (contents_all self1) ;;
                   for_each contents (fun item =>
                     on_db (call item
                       (add_to_stock clock (S d)
                          (Some ("Added as part of kit " ++ item_unicode self1)%string) ;;
                        save clock (S d))))) (self1, db1)).
  { rewrite add_to_stock_unfold.
    unfold bind at 1. unfold get_self at 1. cbn [fst snd].
    destruct (is_in_stock self) eqn:Hin; cbn [negb].
    - assert (Hsame : self1 = self).
      { unfold self1, is_in_stock, status_is in *.
        destruct self as [k t sn hn st by_ du pk lg nt].
        simpl in *. destruct st as [n|]; [|discriminate].
        apply Z.eqb_eq in Hin. now subst. }
      exists db. split; [reflexivity|]. rewrite Hsame.
      unfold bind at 1. unfold ret at 1.
      unfold bind at 1. unfold get_self at 1. cbn [fst snd].
      rewrite Hkit. reflexivity.
    - eexists. split; [|].
      2:{ unfold bind at 1. unfold bind at 1. unfold on_db at 1.
          unfold transaction_create, bind at 1, now at 1. cbn [fst snd].
          unfold update_self at 1. cbn [fst snd].
          unfold bind at 1. unfold get_self at 1. cbn [fst snd].
          change (is_kit (set_status (Some INSTOCK) self)) with (is_kit self).
          rewrite Hkit. reflexivity. }
      reflexivity. }
  destruct Hpre as (db1 & Hi1 & ->).
  destruct (kit_contents_run
              (add_to_stock clock (S d)
                 (Some ("Added as part of kit " ++ item_unicode self1)%string) ;;
               save clock (S d))
              (set_status (Some INSTOCK)) (fun c => is_kit c = false)
              (fun r => eq_refl) (fun r => eq_refl) (fun r => eq_refl)
              (add_to_stock_child d _) self1 self1 db1)
    as (db2 & Hloop & Hi2).
  { now rewrite Hi1. }
  { intros r Hr Hk. rewrite Hi1 in Hr. apply (Hkids r Hr Hk). }
  rewrite Hi1 in Hi2. change (id self1) with (id self) in Hi2.
  exists db2. split; [exact Hloop|]. split; [exact Hi2|]. split.
  - intros r Hr Hk. rewrite Hi2 in Hr.
    destruct (in_kit_update (id self) (set_status (Some INSTOCK)) (items db) r
                (fun r0 => eq_refl) Hr Hk) as (r0 & _ & _ & ->).
    reflexivity.
  - intros r Hr Hk. rewrite Hi2 in Hr.
    apply update_kit_in in Hr. destruct Hr as (r0 & Hr0 & ->).
    destruct (in_kit (id self) r0) eqn:E; [|exact Hr0].
    change (in_kit (id self) r0 = false) in Hk. congruence.
Qed.

End Kits.

(** ** What [levy] leaves alone, and when it fails *)

Section LevyEdges.

Variable clock : nat -> datetime.

Lemma days_overdue_bad (it : Item) (db : Database) :
  is_checked_out it = true -> due it = None ->
  call it (days_overdue clock None) db = (Raise TypeError, tick db).
Proof.
  intros Hout Hdue. unfold call, days_overdue, bind, on_db, now, get_self, raise.
  simpl. rewrite Hout, Hdue. reflexivity.
Qed.

Lemma first_scan_bad (lent : list Item) (acc : Z) (db : Database) (bad : Item) :
  In bad lent -> is_checked_out bad = true -> due bad = None ->
  exists j,
    (1 <= j <= List.length lent)%nat
    /\ fold_each lent acc
         (fun overdue_days item =>
            d <- call item (days_overdue clock None) ;; ret (Z.max overdue_days d)) db
       = (Raise TypeError, advance j db).
Proof.
  intros Hin Hout Hdue. revert acc db.
  induction lent as [|it rest IH]; intros acc db; [destruct Hin|].
  simpl. unfold bind at 1. unfold bind at 1.
  destruct (is_checked_out it) eqn:Hio; [destruct (due it) as [t|] eqn:Hid|].
  - rewrite (days_overdue_now clock it db) by (intros _; congruence).
    simpl. destruct Hin as [->|Hin]; [congruence|].
    destruct (IH Hin (Z.max acc (overdue_at (clock (clock_reads db)) it)) (tick db))
      as (j & Hj & ->).
    exists (S j). split; [lia|]. now rewrite advance_tick.
  - rewrite (days_overdue_bad it db Hio Hid).
    exists 1%nat. split; [lia|]. reflexivity.
  - rewrite (days_overdue_now clock it db) by (intros H; congruence).
    simpl. destruct Hin as [->|Hin]; [congruence|].
    destruct (IH Hin (Z.max acc (overdue_at (clock (clock_reads db)) it)) (tick db))
      as (j & Hj & ->).
    exists (S j). split; [lia|]. now rewrite advance_tick.
Qed.

(** X17.  When one of the person's items is checked out and has no due
    timestamp, [levy] raises [TypeError] during its first scan: no penalty
    is created and no table is changed, only the clock has been read. *)
Theorem levy_type_error (who : Z) (db : Database) (bad : Item) :
  In bad (items db) -> checked_out_by bad = Some who ->
  is_checked_out bad = true -> due bad = None ->
  exists j, levy clock who db = (Raise TypeError, advance j db).
Proof.
  intros Hin Hwho Hout Hdue.
  assert (Hlent : In bad (filter (fun r => opt_Z_eqb (checked_out_by r) who) (items db))).
  { apply filter_In. split; [exact Hin|]. rewrite Hwho. simpl. apply Z.eqb_refl. }
  destruct (first_scan_bad _ 0 db bad Hlent Hout Hdue) as (j & _ & Hscan).
  exists j. unfold levy. unfold bind at 1. unfold item_set_all at 1.
  unfold bind at 1. rewrite Hscan. reflexivity.
Qed.

Lemma keeps_fold_each {St A B} (P : St -> Prop) (xs : list A) (acc : B)
      (step : B -> A -> Comp St B) :
  (forall b x, keeps P (step b x)) -> keeps P (fold_each xs acc step).
Proof.
  intros H. revert acc. induction xs as [|x xs IH]; intros acc; simpl.
  - apply keeps_ret.
  - apply keeps_bind; [apply H|]. intros b. apply IH.
Qed.

Lemma days_overdue_call_keeps (P : Database -> Prop) (it : Item) :
  (forall db, P db -> P (tick db)) ->
  keeps P (call it (days_overdue clock None)).
Proof.
  intros Htick db Hdb. unfold call, days_overdue, bind, on_db, now, get_self.
  simpl. destruct (is_checked_out it); simpl; [|now apply Htick].
  destruct (due it) as [t|]; simpl; [|now apply Htick].
  destruct (dt_geb t (clock (clock_reads db))); simpl; now apply Htick.
Qed.

(** X18.  However [levy] ends, the item table and the ledger are as they
    were, no earlier penalty is changed, and at most one penalty has been
    added, at the end of the penalty table. *)
Theorem levy_touches_only_penalties (who : Z) (db : Database) :
  items (snd (levy clock who db)) = items db
  /\ transactions (snd (levy clock who db)) = transactions db
  /\ (penalties (snd (levy clock who db)) = penalties db
      \/ exists pen, penalties (snd (levy clock who db)) = penalties db ++ [pen]).
Proof.
  set (P0 := fun x : Database =>
               items x = items db /\ transactions x = transactions db
               /\ penalties x = penalties db).
  set (P1 := fun (pen : Penalty) (x : Database) =>
               items x = items db /\ transactions x = transactions db
               /\ penalties x = penalties db ++ [pen]
               /\ forall r, In r (penalties db) -> pen_id r <> pen_id pen).
  set (Q := fun x : Database =>
              items x = items db /\ transactions x = transactions db
              /\ (penalties x = penalties db
                  \/ exists pen, penalties x = penalties db ++ [pen])).
  assert (H01 : forall x, P0 x -> Q x).
  { intros x (Hi & Ht & Hp). repeat split; auto. }
  assert (H1Q : forall pen x, P1 pen x -> Q x).
  { intros pen x (Hi & Ht & Hp & _). repeat split; auto. right. now exists pen. }
  assert (Hlevy : triple P0 (levy clock who) (fun _ => Q) (fun _ => Q)).
  { unfold levy.
    apply triple_bind with (R := fun _ => P0).
    { intros x Hx. simpl. exact Hx. }
    intros lent.
    apply triple_bind with (R := fun _ => P0).
    { apply triple_weaken with (P' := P0) (Q' := fun _ => P0) (E' := fun _ => P0);
        [|auto|auto|intros e x Hx; now apply H01].
      apply keeps_fold_each. intros b x. apply keeps_bind.
      - apply days_overdue_call_keeps. intros y Hy. exact Hy.
      - intros z. apply keeps_ret. }
    intros m. cbv zeta.
    destruct (BASE_PENALTY_AMOUNT * m =? 0).
    { apply triple_ret. intros x Hx. now apply H01. }
    apply triple_bind with (R := P1).
    { intros x (Hi & Ht & Hp). unfold penalty_create, bind, now. simpl.
      repeat split; auto; [now rewrite Hp|].
      intros r Hr. simpl. rewrite Hp.
      pose proof (next_id_fresh _ _ (in_map pen_id _ _ Hr)). lia. }
    intros pen.
    apply triple_bind with (R := fun _ => P1 pen).
    { intros x Hx. simpl. exact Hx. }
    intros lent2.
    apply triple_bind with (R := fun _ => P1 pen).
    { apply triple_weaken with (P' := P1 pen) (Q' := fun _ => P1 pen)
                               (E' := fun _ => P1 pen);
        [|auto|auto|intros e x Hx; now apply (H1Q pen)].
      apply keeps_for_each. intros item _. apply keeps_bind.
      - apply days_overdue_call_keeps. intros y Hy. exact Hy.
      - intros z. destruct (z =? m); [|apply keeps_ret].
        intros x Hx. unfold penalty_items_add.
        destruct (existsb _ (penalty_items x)); exact Hx. }
    intros _.
    apply triple_bind with (R := fun _ => P1 pen).
    { intros x (Hi & Ht & Hp & Hfresh). unfold penalty_save. cbv zeta.
      assert (Hex : existsb (fun r => pen_id r =? pen_id pen) (penalties x) = true).
      { apply existsb_exists. exists pen. split; [|apply Z.eqb_refl].
        rewrite Hp. apply in_or_app. right. now left. }
      rewrite Hex. simpl. repeat split; auto.
      rewrite Hp. now apply map_replace_fresh. }
    intros _. apply triple_ret. intros x Hx. now apply (H1Q pen). }
  specialize (Hlevy db (conj eq_refl (conj eq_refl eq_refl))).
  destruct (levy clock who db) as [[r|e] x]; exact Hlevy.
Qed.

End LevyEdges.

(** ** The phase of a cohort on a date *)

Import Calendar.

Lemma pair_leb_total (a b : Z * date) : pair_leb a b = false -> pair_leb b a = true.
Proof.
  unfold pair_leb. intros H. apply orb_false_iff in H. destruct H as [H1 H2].
  apply Z.ltb_ge in H1. apply orb_true_iff.
  destruct (Z.eq_dec (fst a) (fst b)) as [E|E].
  - right. rewrite E in *. rewrite Z.eqb_refl in *. simpl in *.
    apply Z.leb_gt in H2. apply Z.leb_le. lia.
  - left. apply Z.ltb_lt. lia.
Qed.

Lemma pair_leb_fst (a b : Z * date) : pair_leb a b = true -> fst a <= fst b.
Proof.
  unfold pair_leb. intros H. apply orb_true_iff in H. destruct H as [H|H].
  - apply Z.ltb_lt in H. lia.
  - apply andb_true_iff in H. destruct H as [H _]. apply Z.eqb_eq in H. lia.
Qed.

Lemma pair_leb_trans (a b c : Z * date) :
  pair_leb a b = true -> pair_leb b c = true -> pair_leb a c = true.
Proof.
  unfold pair_leb. intros H1 H2.
  apply orb_true_iff in H1. apply orb_true_iff in H2. apply orb_true_iff.
  destruct H1 as [H1|H1], H2 as [H2|H2];
    rewrite ?andb_true_iff, ?Z.ltb_lt, ?Z.eqb_eq, ?Z.leb_le in *;
    try (left; lia).
  right. lia.
Qed.

Lemma insert_desc_In (x y : Z * date) (l : list (Z * date)) :
  In y (insert_desc x l) <-> y = x \/ In y l.
Proof.
  induction l as [|z l IH]; simpl.
  - split; [intros [H|[]]; auto|intros [H|[]]; auto].
  - destruct (pair_leb z x); simpl; [split; intros [H|H]; auto|].
    rewrite IH. split; intros H; tauto.
Qed.

Lemma insert_desc_sorted (x : Z * date) (l : list (Z * date)) :
  StronglySorted (fun a b => pair_leb b a = true) l ->
  StronglySorted (fun a b => pair_leb b a = true) (insert_desc x l).
Proof.
  induction 1 as [|z l Hs IH Hz]; simpl.
  - constructor; constructor.
  - destruct (pair_leb z x) eqn:E.
    + constructor; [constructor; assumption|].
      constructor; [exact E|].
      eapply Forall_impl; [|exact Hz]. intros w Hw.
      now apply (pair_leb_trans w z x).
    + constructor; [exact IH|].
      apply Forall_forall. intros w Hw. apply insert_desc_In in Hw.
      destruct Hw as [->|Hw]; [now apply pair_leb_total|].
      apply (proj1 (Forall_forall _ _) Hz w Hw).
Qed.

Lemma sorted_reverse_In (y : Z * date) (l : list (Z * date)) :
  In y (sorted_reverse l) <-> In y l.
Proof.
  induction l as [|x l IH]; simpl; [tauto|].
  rewrite insert_desc_In, IH. split; intros [H|H]; auto.
Qed.

Lemma sorted_reverse_sorted (l : list (Z * date)) :
  StronglySorted (fun a b => pair_leb b a = true) (sorted_reverse l).
Proof.
  induction l as [|x l IH]; simpl; [constructor|now apply insert_desc_sorted].
Qed.

(** The loop keeps the last pair, in a list sorted downwards, whose end
    date is not before the date: the one with the least phase. *)
Lemma phase_loop (d : date) (l : list (Z * date)) (acc : option Z) :
  StronglySorted (fun a b => pair_leb b a = true) l ->
  let r := fold_left (fun result pd => if d <=? snd pd then Some (fst pd) else result)
                     l acc in
  ((forall pd, In pd l -> snd pd < d) /\ r = acc)
  \/ exists pd, In pd l /\ d <= snd pd /\ r = Some (fst pd)
                /\ forall pd', In pd' l -> d <= snd pd' -> fst pd <= fst pd'.
Proof.
  intros Hs. revert acc. induction Hs as [|x l Hs IH Hx]; intros acc;
    cbv zeta in *; cbn [fold_left]; unfold date in *.
  - left. split; [intros pd []|reflexivity].
  - match goal with
    | |- context [if ?c then Some (fst x) else acc] => destruct c eqn:L
    end; [apply Z.leb_le in L|apply Z.leb_gt in L].
    + destruct (IH (Some (fst x))) as [[Hnone Hr]|(pd & Hpd & Hle & Hr & Hmin)].
      * right. exists x. split; [now left|]. split; [exact L|]. split; [exact Hr|].
        intros pd' [<-|Hpd'] Hd; [lia|]. specialize (Hnone pd' Hpd'). lia.
      * right. exists pd. split; [now right|]. split; [exact Hle|].
        split; [exact Hr|].
        intros pd' [<-|Hpd'] Hd; [|now apply Hmin].
        apply pair_leb_fst. apply (proj1 (Forall_forall _ _) Hx pd Hpd).
    + destruct (IH acc) as [[Hnone Hr]|(pd & Hpd & Hle & Hr & Hmin)].
      * left. split; [|exact Hr]. intros pd [<-|Hpd]; [exact L|now apply Hnone].
      * right. exists pd. split; [now right|]. split; [exact Hle|].
        split; [exact Hr|].
        intros pd' [<-|Hpd'] Hd; [lia|now apply Hmin].
Qed.

(** X19.  [phase_for_cohort_and_date] raises [KeyError] for a cohort other
    than 1 and 2.  For these it returns [None] exactly when the date is
    after the end of every phase, and otherwise the least phase whose end
    date is not before the date. *)
Theorem phase_for_cohort_and_date_spec (cohort : Z) (d : date) :
  (dict_get PHASE_END_DATES cohort = None <-> cohort <> 1 /\ cohort <> 2)
  /\ match dict_get PHASE_END_DATES cohort with
     | None => phase_for_cohort_and_date cohort d = KeyError
     | Some phases =>
         exists r,
           phase_for_cohort_and_date cohort d = Found r
           /\ (r = None <-> forall pd, In pd phases -> snd pd < d)
           /\ forall p, r = Some p ->
                (exists e, In (p, e) phases /\ d <= e)
                /\ forall pd, In pd phases -> d <= snd pd -> p <= fst pd
     end.
Proof.
  split.
  - unfold PHASE_END_DATES. cbn [dict_get].
    destruct (Z.eqb_spec 1 cohort) as [E1|E1]; [split; [discriminate|lia]|].
    destruct (Z.eqb_spec 2 cohort) as [E2|E2]; [split; [discriminate|lia]|].
    split; [lia|reflexivity].
  - unfold phase_for_cohort_and_date.
    destruct (dict_get PHASE_END_DATES cohort) as [phases|]; [|reflexivity].
    eexists. split; [reflexivity|]. unfold phase_scan.
    destruct (phase_loop d (sorted_reverse phases) None (sorted_reverse_sorted phases))
      as [[Hnone Hr]|(pd & Hpd & Hle & Hr & Hmin)]; rewrite Hr.
    + split.
      * split; [|reflexivity]. intros _ pd Hpd. apply Hnone.
        now apply sorted_reverse_In.
      * intros p Hp. discriminate Hp.
    + split.
      * split; [discriminate|]. intros Hall.
        specialize (Hall pd (proj1 (sorted_reverse_In pd phases) Hpd)). lia.
      * intros p Hp. injection Hp as <-. split.
        -- exists (snd pd). split; [|exact Hle].
           rewrite <- surjective_pairing. now apply sorted_reverse_In.
        -- intros pd' Hpd' Hd. apply Hmin; [|exact Hd].
           now apply sorted_reverse_In.
Qed.

(** * The further properties on the sample data *)

Import Stockroom.

Ltac in_rows H := repeat (destruct H as [<-|H]; [|]); try destruct H.

Ltac wf := unfold dt_wf; simpl; lia.


Lemma kit_out_db_rows : items kit_out_db = [a_kit_out; kit_camera_out; kit_lens_out].
Proof. reflexivity. Qed.

Lemma inventory_rows :
  items inventory = [camera_2345; camera_4567; lens_8765; camera_C1].
Proof. reflexivity. Qed.

Lemma reached_sound (script : list (nat * Action)) :
  sound_table (items (database (run sample_clock script))).
Proof.
  apply (run_from_db sample_clock (fun db => sound_table (items db))).
  - intros db H. exact H.
  - intros db t H. exact H.
  - apply save_sound.
  - repeat split; [constructor|constructor|intros r1 r2 []].
Qed.

(** X1: a camera in stock is checked in. *)
Lemma check_in_not_checked_out_witness :
  status camera_2345 <> Some OUT
  /\ check_in sample_clock 1 None (camera_2345, inventory)
     = (Raise (TransactionError "Item isn't checked out -- 1"),
        (camera_2345, inventory)).
Proof.
  assert (H : status camera_2345 <> Some OUT) by discriminate.
  split; [exact H|].
  exact (check_in_not_checked_out sample_clock 0 None camera_2345 inventory H).
Defined.

(** X2: a camera with no number is saved. *)
Lemma save_without_number_witness :
  serialnumber blank_camera = "" /\ hip_number blank_camera = ""
  /\ save sample_clock 1 (blank_camera, inventory)
     = (Raise (ItemError "Each item needs either a serial number or a HIP number"),
        (blank_camera, inventory)).
Proof.
  split; [reflexivity|]. split; [reflexivity|].
  exact (save_without_number sample_clock 0 blank_camera inventory eq_refl eq_refl).
Defined.

(** X3: the camera that Bob has is added to stock, twice. *)
Lemma add_to_stock_once_witness :
  is_kit a_5d_out = false
  /\ exists db1,
       add_to_stock sample_clock 1 None (a_5d_out, checkout_db)
       = (Ok tt, (a_5d_restocked, db1))
       /\ items db1 = items checkout_db
       /\ transactions db1 =
          transactions checkout_db ++
            [mkTransaction 1 None (sample_clock (clock_reads checkout_db))
                           (Some ADD) None]
       /\ add_to_stock sample_clock 1 None (a_5d_restocked, db1)
          = (Ok tt, (a_5d_restocked, db1)).
Proof.
  assert (H : is_kit a_5d_out = false) by reflexivity.
  split; [exact H|].
  destruct (add_to_stock_once sample_clock 0 0 None None a_5d_out checkout_db H)
    as (db1 & H1 & H2 & H3 & _ & H5).
  exists db1. split; [exact H1|]. split; [exact H2|]. split; [exact H3|exact H5].
Defined.

(** X4: the camera due on Sunday evening, asked about on Wednesday and on
    Thursday. *)
Lemma days_overdue_monotone_witness :
  exists n1 n2,
    days_overdue sample_clock (Some wednesday_morning) (late_camera, late_db)
    = (Ok n1, (late_camera, late_db))
    /\ days_overdue sample_clock (Some thursday_evening) (late_camera, late_db)
       = (Ok n2, (late_camera, late_db))
    /\ 0 <= n1 <= n2.
Proof.
  assert (H1 : dt_wf sunday_evening) by wf.
  assert (H2 : dt_wf wednesday_morning) by wf.
  assert (H3 : dt_wf thursday_evening) by wf.
  assert (H4 : dt_micros wednesday_morning <= dt_micros thursday_evening)
    by (vm_compute; discriminate).
  destruct (days_overdue_monotone sample_clock late_camera late_db sunday_evening
              wednesday_morning thursday_evening eq_refl H1 H2 H3 H4)
    as (n1 & n2 & E1 & E2 & Hle & _).
  exists n1, n2. split; [exact E1|]. split; [exact E2|exact Hle].
Defined.

(** X5: the camera that is out with no due timestamp. *)
Lemma days_overdue_without_due_witness :
  due undated_camera = None
  /\ days_overdue sample_clock (Some wednesday_morning) (undated_camera, undated_db)
     = (Raise TypeError, (undated_camera, undated_db)).
Proof.
  split; [reflexivity|].
  exact (days_overdue_without_due sample_clock undated_camera undated_db
           wednesday_morning eq_refl).
Defined.

(** X6: the default due timestamp on the Wednesday of the samples. *)
Lemma default_due_is_ahead_witness :
  dt_wf (sample_clock (clock_reads inventory))
  /\ exists t,
       set_due_datetime sample_clock None (camera_2345, inventory)
       = (Ok tt, (set_due (Some t) camera_2345, tick inventory))
       /\ dt_micros (sample_clock (clock_reads inventory)) < dt_micros t.
Proof.
  assert (H : dt_wf (sample_clock (clock_reads inventory)))
    by (vm_compute; intuition discriminate).
  split; [exact H|].
  destruct (default_due_is_ahead sample_clock camera_2345 inventory H)
    as (t & E & _ & Hlt & _).
  exists t. split; [exact E|exact Hlt].
Defined.

(** X7: the camera with the HIP number C1, looked up by its number. *)
Lemma find_by_own_number_witness :
  In camera_C1 (items inventory)
  /\ fst (find_by_number (number camera_C1) inventory) = Ok camera_C1.
Proof.
  assert (H : In camera_C1 (items inventory)) by (vm_compute; auto).
  split; [exact H|].
  apply (proj2 (find_by_own_number camera_C1 inventory H)).
  - unfold keys_unique. vm_compute. repeat constructor; simpl; intuition discriminate.
  - rewrite inventory_rows. intros r Hr Hid. in_rows Hr;
      try (split; discriminate). now elim Hid.
Defined.

(** X10: the first camera of the inventory is checked out. *)
Lemma check_out_leaf_witness :
  status camera_2345 = Some INSTOCK /\ is_kit camera_2345 = false
  /\ exists self' db1,
       check_out sample_clock 2 bob_dobbs None None (camera_2345, inventory)
       = (Ok tt, (self', set_items (upsert self' (items inventory)) db1))
       /\ items db1 = items inventory.
Proof.
  split; [reflexivity|]. split; [reflexivity|].
  destruct (check_out_leaf sample_clock 0 bob_dobbs None None camera_2345 inventory
              eq_refl eq_refl) as (self' & db1 & _ & Hrows & _ & Hrun).
  exists self', db1. split; [exact Hrun|exact Hrows].
Defined.






(** X16: the kit that Bob has is added to stock. *)
Lemma kit_add_to_stock_all_witness :
  sound_table (items kit_out_db)
  /\ exists db',
       add_to_stock sample_clock 2 None (a_kit_out, kit_out_db)
       = (Ok tt, (set_status (Some INSTOCK) a_kit_out, db'))
       /\ (forall r, In r (items db') -> in_kit 1 r = true -> status r = Some INSTOCK)
       /\ row_by_key 1 db' = Some a_kit_out.
Proof.
  assert (Hs : sound_table (items kit_out_db)) by apply reached_sound.
  split; [exact Hs|].
  assert (Hc : forall r, In r (items kit_out_db) -> in_kit (id a_kit_out) r = true ->
                         is_kit r = false).
  { rewrite kit_out_db_rows. intros r Hr Hk. in_rows Hr; (reflexivity || discriminate). }
  destruct (kit_add_to_stock_all sample_clock 0 None a_kit_out kit_out_db
              Hs eq_refl Hc) as (db' & Hrun & Hrows & Hin & _).
  exists db'. split; [exact Hrun|]. split; [exact Hin|].
  unfold row_by_key. rewrite Hrows, kit_out_db_rows. reflexivity.
Defined.

(** X17: Bob has the camera that is out with no due timestamp. *)
Lemma levy_type_error_witness :
  In undated_camera (items undated_db)
  /\ exists j,
       levy sample_clock bob_dobbs undated_db
       = (Raise TypeError, advance j undated_db).
Proof.
  assert (H : In undated_camera (items undated_db)) by (simpl; auto).
  split; [exact H|].
  exact (levy_type_error sample_clock bob_dobbs undated_db undated_camera
           H eq_refl eq_refl eq_refl).
Defined.
